(** * User management component: a shallow embedding of
    [web/src/components/UserManagementComponent.vue]

    The component keeps one reactive record ([userManagement]), talks to a
    store ([userStore]) whose operations are asynchronous and may reject, and
    reports to the user through a notification toolkit.  The embedding keeps
    the three apart:

    - JavaScript strings are sequences of UTF-16 code units, so that
      [String.prototype.trim] and [===] on strings mean what they mean in the
      source;
    - the handlers are written in a small monad of JavaScript completions
      (normal, [return], [throw]) over a world made of the reactive record,
      the state of the store and the log of everything the run did that is
      visible from outside;
    - the store is an interface ([UserStore]); nothing is assumed about what
      its operations answer.

    A handler is run to completion before the next one starts: what other
    handlers may do while one of them is suspended at an [await] is outside
    this model. *)

From Stdlib Require Import List Bool Ascii String NArith ZArith.
Import ListNotations.

Set Implicit Arguments.

(* ================================================================= *)
(** ** JavaScript strings *)

Module JsString.

(** A string value is a sequence of UTF-16 code units. *)
Definition code_unit := N.
Definition t := list code_unit.

(** [===] on strings: the same code units in the same order. *)
Fixpoint eqb (a b : t) : bool :=
  match a, b with
  | [], [] => true
  | x :: a', y :: b' => N.eqb x y && eqb a' b'
  | _, _ => false
  end.

(** ToBoolean on a string: only the empty string is falsy. *)
Definition truthy (s : t) : bool :=
  match s with [] => false | _ :: _ => true end.

(** WhiteSpace and LineTerminator of ECMAScript, the code units that
    [trim] strips. *)
Definition is_white_space (c : code_unit) : bool :=
  (N.eqb c 0x0009 || N.eqb c 0x000A || N.eqb c 0x000B || N.eqb c 0x000C
   || N.eqb c 0x000D || N.eqb c 0x0020 || N.eqb c 0x00A0 || N.eqb c 0x1680
   || (N.leb 0x2000 c && N.leb c 0x200A)
   || N.eqb c 0x2028 || N.eqb c 0x2029 || N.eqb c 0x202F || N.eqb c 0x205F
   || N.eqb c 0x3000 || N.eqb c 0xFEFF)%bool.

Fixpoint trimStart (s : t) : t :=
  match s with
  | c :: s' => if is_white_space c then trimStart s' else s
  | [] => []
  end.

Definition trimEnd (s : t) : t := rev (trimStart (rev s)).

Definition trim (s : t) : t := trimEnd (trimStart s).

(** *** Literals

    The source is a UTF-8 file; a literal of the source is written here as
    the same text and decoded to code units. *)

Definition continuation (b : N) : N := N.land b 0x3F.

Fixpoint utf8_points (fuel : nat) (bs : list N) : list N :=
  match fuel, bs with
  | S fuel', b0 :: rest =>
      if N.ltb b0 0x80 then b0 :: utf8_points fuel' rest
      else if N.ltb b0 0xE0 then
        match rest with
        | b1 :: rest' =>
            (N.shiftl (N.land b0 0x1F) 6 + continuation b1)%N
              :: utf8_points fuel' rest'
        | _ => []
        end
      else if N.ltb b0 0xF0 then
        match rest with
        | b1 :: b2 :: rest' =>
            (N.shiftl (N.land b0 0x0F) 12 + N.shiftl (continuation b1) 6
             + continuation b2)%N :: utf8_points fuel' rest'
        | _ => []
        end
      else
        match rest with
        | b1 :: b2 :: b3 :: rest' =>
            (N.shiftl (N.land b0 0x07) 18 + N.shiftl (continuation b1) 12
             + N.shiftl (continuation b2) 6 + continuation b3)%N
              :: utf8_points fuel' rest'
        | _ => []
        end
  | _, _ => []
  end.

(** A code point above the basic plane is a surrogate pair. *)
Definition utf16_units (p : N) : list code_unit :=
  if N.ltb p 0x10000 then [p]
  else let q := (p - 0x10000)%N in
       [(0xD800 + N.shiftr q 10)%N; (0xDC00 + N.land q 0x3FF)%N].

Definition lit (s : string) : t :=
  let bs := map (fun b => N_of_ascii b) (list_ascii_of_string s) in
  flat_map utf16_units (utf8_points (List.length bs) bs).

Definition quote : t := [0x22%N].

End JsString.

Definition jsstring := JsString.t.

(* ================================================================= *)
(** ** Values, records and the reactive state *)

(** The values an identifier can be: [null] (no user), a number or a
    string.  Identifiers are integers, so [===] on them is equality. *)
Inductive JsVal : Type :=
| JNull
| JNum (n : Z)
| JStr (s : jsstring).

(** [a === b]: the same type and the same value. *)
Definition strict_eq (a b : JsVal) : bool :=
  match a, b with
  | JNull, JNull => true
  | JNum x, JNum y => Z.eqb x y
  | JStr x, JStr y => JsString.eqb x y
  | _, _ => false
  end.

(** An object literal with string values, its keys in insertion order. *)
Definition JsObject := list (string * jsstring).

Definition has_key (k : string) (o : JsObject) : bool :=
  existsb (fun kv => String.eqb (fst kv) k) o.

Fixpoint set_prop (k : string) (v : jsstring) (o : JsObject) : JsObject :=
  match o with
  | [] => [(k, v)]
  | (k', v') :: o' =>
      if String.eqb k' k then (k', v) :: o' else (k', v') :: set_prop k v o'
  end.

(** What a rejected promise carries: an error whose [message] may be
    missing. *)
Record JsError : Type := { message : option jsstring }.

Module UserRecord.
Record t : Type := {
  id : JsVal;
  username : jsstring;
  role : jsstring;
  created_at : option jsstring;
  last_login : option jsstring
}.
End UserRecord.

Module Form.
Record t : Type := {
  username : jsstring;
  password : jsstring;
  confirmPassword : jsstring;
  role : jsstring
}.
End Form.

(** The reactive record [userManagement]. *)
Record UserManagement : Type := {
  loading : bool;
  users : list UserRecord.t;
  error : option jsstring;
  modalVisible : bool;
  modalTitle : jsstring;
  editMode : bool;
  editUserId : JsVal;
  form : Form.t;
  displayPasswordFields : bool
}.

Definition with_loading (b : bool) (u : UserManagement) :=
  {| loading := b; users := users u; error := error u;
     modalVisible := modalVisible u; modalTitle := modalTitle u;
     editMode := editMode u; editUserId := editUserId u; form := form u;
     displayPasswordFields := displayPasswordFields u |}.

Definition with_users (us : list UserRecord.t) (u : UserManagement) :=
  {| loading := loading u; users := us; error := error u;
     modalVisible := modalVisible u; modalTitle := modalTitle u;
     editMode := editMode u; editUserId := editUserId u; form := form u;
     displayPasswordFields := displayPasswordFields u |}.

Definition with_error (e : option jsstring) (u : UserManagement) :=
  {| loading := loading u; users := users u; error := e;
     modalVisible := modalVisible u; modalTitle := modalTitle u;
     editMode := editMode u; editUserId := editUserId u; form := form u;
     displayPasswordFields := displayPasswordFields u |}.

Definition with_modalVisible (b : bool) (u : UserManagement) :=
  {| loading := loading u; users := users u; error := error u;
     modalVisible := b; modalTitle := modalTitle u;
     editMode := editMode u; editUserId := editUserId u; form := form u;
     displayPasswordFields := displayPasswordFields u |}.

Definition with_modalTitle (t : jsstring) (u : UserManagement) :=
  {| loading := loading u; users := users u; error := error u;
     modalVisible := modalVisible u; modalTitle := t;
     editMode := editMode u; editUserId := editUserId u; form := form u;
     displayPasswordFields := displayPasswordFields u |}.

Definition with_editMode (b : bool) (u : UserManagement) :=
  {| loading := loading u; users := users u; error := error u;
     modalVisible := modalVisible u; modalTitle := modalTitle u;
     editMode := b; editUserId := editUserId u; form := form u;
     displayPasswordFields := displayPasswordFields u |}.

Definition with_editUserId (i : JsVal) (u : UserManagement) :=
  {| loading := loading u; users := users u; error := error u;
     modalVisible := modalVisible u; modalTitle := modalTitle u;
     editMode := editMode u; editUserId := i; form := form u;
     displayPasswordFields := displayPasswordFields u |}.

Definition with_form (f : Form.t) (u : UserManagement) :=
  {| loading := loading u; users := users u; error := error u;
     modalVisible := modalVisible u; modalTitle := modalTitle u;
     editMode := editMode u; editUserId := editUserId u; form := f;
     displayPasswordFields := displayPasswordFields u |}.

Definition with_displayPasswordFields (b : bool) (u : UserManagement) :=
  {| loading := loading u; users := users u; error := error u;
     modalVisible := modalVisible u; modalTitle := modalTitle u;
     editMode := editMode u; editUserId := editUserId u; form := form u;
     displayPasswordFields := b |}.

Definition form_with_username (s : jsstring) (f : Form.t) :=
  {| Form.username := s; Form.password := Form.password f;
     Form.confirmPassword := Form.confirmPassword f;
     Form.role := Form.role f |}.

Definition form_with_password (s : jsstring) (f : Form.t) :=
  {| Form.username := Form.username f; Form.password := s;
     Form.confirmPassword := Form.confirmPassword f;
     Form.role := Form.role f |}.

Definition form_with_confirmPassword (s : jsstring) (f : Form.t) :=
  {| Form.username := Form.username f; Form.password := Form.password f;
     Form.confirmPassword := s; Form.role := Form.role f |}.

Definition form_with_role (s : jsstring) (f : Form.t) :=
  {| Form.username := Form.username f; Form.password := Form.password f;
     Form.confirmPassword := Form.confirmPassword f; Form.role := s |}.

(** The record as [reactive({...})] creates it. *)
Definition initial_userManagement : UserManagement :=
  {| loading := false;
     users := [];
     error := None;
     modalVisible := false;
     modalTitle := JsString.lit "添加用户";
     editMode := false;
     editUserId := JNull;
     form := {| Form.username := [];
                Form.password := [];
                Form.confirmPassword := [];
                Form.role := JsString.lit "user" |};
     displayPasswordFields := true |}.

(* ================================================================= *)
(** ** What a run does that is visible from outside *)

Inductive StoreCall : Type :=
| GetUsers
| CreateUser (data : JsObject)
| UpdateUser (id : JsVal) (data : JsObject)
| DeleteUser (id : JsVal).

Inductive NoticeKind : Type := NoticeError | NoticeSuccess.

(** The properties handed to [modal.confirm], [onOk] apart. *)
Record ConfirmProps : Type := {
  title : jsstring;
  content : jsstring;
  okText : jsstring;
  okType : jsstring;
  cancelText : jsstring
}.

Inductive Event : Type :=
| Notified (kind : NoticeKind) (msg : jsstring) (description : option jsstring)
| ConsoleError (label : jsstring) (e : JsError)
| Awaited (call : StoreCall) (pending : UserManagement)
    (** a call to the store, with the reactive record as it stands (and is
        rendered) while the call is pending *)
| ConfirmShown (props : ConfirmProps).

Definition store_calls (l : list Event) : list StoreCall :=
  flat_map (fun e => match e with Awaited c _ => [c] | _ => [] end) l.

Definition is_mutation (c : StoreCall) : bool :=
  match c with GetUsers => false | _ => true end.

(** How a promise settles. *)
Inductive Settled (A : Type) : Type :=
| Resolved (a : A)
| Rejected (e : JsError).
Arguments Rejected {A} e.

(** The store, [useUserStore()]: its operations answer as they please and
    move the state of the store (the server behind it included). *)
Class UserStore (S : Type) : Type := {
  getUsers : S -> Settled (list UserRecord.t) * S;
  createUser : JsObject -> S -> Settled unit * S;
  updateUser : JsVal -> JsObject -> S -> Settled unit * S;
  deleteUser : JsVal -> S -> Settled unit * S;
  userId : S -> JsVal;
  userRole : S -> jsstring;
  isSuperAdmin : S -> bool
}.

Record World (S : Type) : Type := {
  um : UserManagement;
  store : S;
  log : list Event
}.

Arguments JsString.lit : simpl never.

(* ================================================================= *)
(** ** Completions *)

(** How a block of statements ends: normally with a value, by [return]
    (the handlers return nothing), or by a [throw]. *)
Inductive Completion (A : Type) : Type :=
| Normal (a : A)
| Returned
| Thrown (e : JsError).
Arguments Returned {A}.
Arguments Thrown {A} e.

Section Component.

Context {S : Type} {userStore : UserStore S}.

Definition M (A : Type) : Type := World S -> Completion A * World S.

Definition ret {A} (a : A) : M A := fun w => (Normal a, w).

Definition bind {A B} (m : M A) (k : A -> M B) : M B :=
  fun w =>
    match m w with
    | (Normal a, w') => k a w'
    | (Returned, w') => (Returned, w')
    | (Thrown e, w') => (Thrown e, w')
    end.

Notation "x <- m ;; k" := (bind m (fun x => k))
  (at level 61, m at next level, right associativity).
Notation "m ;; k" := (bind m (fun _ => k))
  (at level 61, right associativity).

(** Reading and writing [userManagement]. *)
Definition read {A} (f : UserManagement -> A) : M A :=
  fun w => (Normal (f (um w)), w).

Definition assign (f : UserManagement -> UserManagement) : M unit :=
  fun w => (Normal tt, {| um := f (um w); store := store w; log := log w |}).

Definition emit (e : Event) : M unit :=
  fun w =>
    (Normal tt, {| um := um w; store := store w; log := log w ++ [e] |}).

(** The statement [return;]. *)
Definition return_ {A} : M A := fun w => (Returned, w).

(** [if (b) { m }] *)
Definition when (b : bool) (m : M unit) : M unit :=
  if b then m else ret tt.

(** [try { body } catch (e) { handler e } finally { fin }]: the handler
    runs on a throw of the body, [fin] runs however the rest ended, and an
    abrupt end of [fin] would replace the completion of the rest. *)
Definition try_catch_finally {A}
    (body : M A) (handler : JsError -> M A) (fin : M unit) : M A :=
  fun w =>
    let (c1, w1) := body w in
    let (c2, w2) :=
      match c1 with
      | Thrown e => handler e w1
      | _ => (c1, w1)
      end in
    match fin w2 with
    | (Normal _, w3) => (c2, w3)
    | (Returned, w3) => (Returned, w3)
    | (Thrown e, w3) => (Thrown e, w3)
    end.

(** The body of a function whose callers see [return] as a normal end. *)
Definition function_ (body : M unit) : M unit :=
  fun w =>
    match body w with
    | (Returned, w') => (Normal tt, w')
    | r => r
    end.

(** [await userStore.op(...)]: the call is logged with the record as it
    stands while the call is pending, the store answers, and a rejection
    is thrown at the [await]. *)
Definition await {A} (call : StoreCall) (op : S -> Settled A * S) : M A :=
  fun w =>
    let (r, s') := op (store w) in
    let w' := {| um := um w; store := s';
                 log := log w ++ [Awaited call (um w)] |} in
    match r with
    | Resolved a => (Normal a, w')
    | Rejected e => (Thrown e, w')
    end.

Definition notification_error
    (msg : jsstring) (description : option jsstring) : M unit :=
  emit (Notified NoticeError msg description).

Definition notification_success (msg : jsstring) : M unit :=
  emit (Notified NoticeSuccess msg None).

Definition console_error (label : jsstring) (e : JsError) : M unit :=
  emit (ConsoleError label e).

(** [error.message || fallback] *)
Definition message_or (e : JsError) (fallback : jsstring) : jsstring :=
  match message e with
  | Some m => if JsString.truthy m then m else fallback
  | None => fallback
  end.

(* --------------------------------------------------------------- *)
(** *** The watcher on [displayPasswordFields] *)

Definition watch_displayPasswordFields (newVal : bool) : M unit :=
  when (negb newVal) (
    assign (fun u => with_form (form_with_password [] (form u)) u) ;;
    assign (fun u => with_form (form_with_confirmPassword [] (form u)) u)).

(* --------------------------------------------------------------- *)
(** *** The handlers *)

Definition fetchUsers : M unit :=
  function_ (
    try_catch_finally (
      assign (with_loading true) ;;
      us <- await GetUsers getUsers ;;
      assign (with_users us) ;;
      assign (with_error None)
    ) (fun e =>
      console_error (JsString.lit "获取用户列表失败:") e ;;
      assign (with_error (Some (JsString.lit "获取用户列表失败")))
    ) (
      assign (with_loading false))).

Definition showAddUserModal : M unit :=
  function_ (
    assign (with_modalTitle (JsString.lit "添加用户")) ;;
    assign (with_editMode false) ;;
    assign (with_editUserId JNull) ;;
    assign (with_form {| Form.username := [];
                         Form.password := [];
                         Form.confirmPassword := [];
                         Form.role := JsString.lit "user" |}) ;;
    assign (with_displayPasswordFields true) ;;
    assign (with_modalVisible true)).

Definition showEditUserModal (user : UserRecord.t) : M unit :=
  function_ (
    assign (with_modalTitle (JsString.lit "编辑用户")) ;;
    assign (with_editMode true) ;;
    assign (with_editUserId (UserRecord.id user)) ;;
    assign (with_form {| Form.username := UserRecord.username user;
                         Form.password := [];
                         Form.confirmPassword := [];
                         Form.role := UserRecord.role user |}) ;;
    assign (with_displayPasswordFields false) ;;
    assign (with_modalVisible true)).

(** The object handed to [updateUser]. *)
Definition updateData (u : UserManagement) : JsObject :=
  let updateData :=
    [("username"%string, JsString.trim (Form.username (form u)));
     ("role"%string, Form.role (form u))] in
  if (displayPasswordFields u && JsString.truthy (Form.password (form u)))%bool
  then set_prop "password" (Form.password (form u)) updateData
  else updateData.

(** The object handed to [createUser]. *)
Definition createData (u : UserManagement) : JsObject :=
  [("username"%string, JsString.trim (Form.username (form u)));
   ("password"%string, Form.password (form u));
   ("role"%string, Form.role (form u))].

Definition handleUserFormSubmit : M unit :=
  function_ (
    try_catch_finally (
      username <- read (fun u => Form.username (form u)) ;;
      when (negb (JsString.truthy (JsString.trim username))) (
        notification_error (JsString.lit "用户名不能为空") None ;;
        return_) ;;
      shown <- read displayPasswordFields ;;
      when shown (
        password <- read (fun u => Form.password (form u)) ;;
        when (negb (JsString.truthy password)) (
          notification_error (JsString.lit "密码不能为空") None ;;
          return_) ;;
        password <- read (fun u => Form.password (form u)) ;;
        confirmPassword <- read (fun u => Form.confirmPassword (form u)) ;;
        when (negb (JsString.eqb password confirmPassword)) (
          notification_error (JsString.lit "两次输入的密码不一致") None ;;
          return_)) ;;
      assign (with_loading true) ;;
      edit <- read editMode ;;
      (if edit then
         u <- read (fun u => u) ;;
         await (UpdateUser (editUserId u) (updateData u))
               (updateUser (editUserId u) (updateData u)) ;;
         notification_success (JsString.lit "用户更新成功")
       else
         u <- read (fun u => u) ;;
         await (CreateUser (createData u)) (createUser (createData u)) ;;
         notification_success (JsString.lit "用户创建成功")) ;;
      fetchUsers ;;
      assign (with_modalVisible false)
    ) (fun e =>
      console_error (JsString.lit "用户操作失败:") e ;;
      notification_error (JsString.lit "操作失败")
        (Some (message_or e (JsString.lit "请稍后重试")))
    ) (
      assign (with_loading false))).

(** How the user leaves a confirmation dialog, when one is shown. *)
Inductive Answer : Type := PressOk | PressCancel.

(** The statement [throw e]. *)
Definition throw {A} (e : JsError) : M A := fun w => (Thrown e, w).

(** A confirmation dialog: called with its properties and its [onOk]
    callback, it does what the answer of the user makes it do. *)
Definition ModalApi : Type := ConfirmProps -> M unit -> Answer -> M unit.

(** [notification.modal].  The notification object of the toolkit has the
    methods [open], [close], [destroy], [config] and one per kind of notice
    ([success], [error], [info], [warning]), and no member [modal]: reading
    it gives [undefined]. *)
Definition notification_modal : option ModalApi := None.

(** The TypeError of reading [confirm] off [undefined]. *)
Definition undefined_confirm : JsError :=
  {| message :=
       Some (JsString.lit
               "Cannot read properties of undefined (reading 'confirm')") |}.

(** The text of the dialog: the template literal around [user.username]. *)
Definition confirm_content (user : UserRecord.t) : jsstring :=
  JsString.lit "确定要删除用户 " ++ JsString.quote
    ++ UserRecord.username user
    ++ JsString.quote ++ JsString.lit " 吗？此操作不可撤销。".

(** The properties of the dialog. *)
Definition confirm_props (user : UserRecord.t) : ConfirmProps :=
  {| title := JsString.lit "确认删除用户";
     content := confirm_content user;
     okText := JsString.lit "删除";
     okType := JsString.lit "danger";
     cancelText := JsString.lit "取消" |}.

(** The [onOk] callback that [confirmDeleteUser] writes for the dialog. *)
Definition onOk (user : UserRecord.t) : M unit :=
  function_ (
    try_catch_finally (
      assign (with_loading true) ;;
      await (DeleteUser (UserRecord.id user))
            (deleteUser (UserRecord.id user)) ;;
      notification_success (JsString.lit "用户删除成功") ;;
      fetchUsers
    ) (fun e =>
      console_error (JsString.lit "删除用户失败:") e ;;
      notification_error (JsString.lit "删除失败")
        (Some (message_or e (JsString.lit "请稍后重试")))
    ) (
      assign (with_loading false))).

(** [const { modal } = notification] binds what [notification.modal] is, and
    [modal.confirm] is read before the object literal of the call is built:
    on [undefined] the handler throws there. *)
Definition confirmDeleteUser (user : UserRecord.t) (answer : Answer)
  : M unit :=
  function_ (
    current <- (fun w => (Normal (userId (store w)), w)) ;;
    when (strict_eq (UserRecord.id user) current) (
      notification_error (JsString.lit "不能删除自己的账户") None ;;
      return_) ;;
    modal <- ret notification_modal ;;
    match modal with
    | Some modal => modal (confirm_props user) (onOk user) answer
    | None => throw undefined_confirm
    end).

Definition onMounted : M unit := function_ fetchUsers.

(* --------------------------------------------------------------- *)
(** *** Helpers of the template *)

Definition getRoleLabel (role : jsstring) : jsstring :=
  if JsString.eqb role (JsString.lit "superadmin")
  then JsString.lit "超级管理员"
  else if JsString.eqb role (JsString.lit "admin")
  then JsString.lit "管理员"
  else if JsString.eqb role (JsString.lit "user")
  then JsString.lit "普通用户"
  else role.

Definition getRoleColor (role : jsstring) : jsstring :=
  if JsString.eqb role (JsString.lit "superadmin")
  then JsString.lit "red"
  else if JsString.eqb role (JsString.lit "admin")
  then JsString.lit "blue"
  else if JsString.eqb role (JsString.lit "user")
  then JsString.lit "green"
  else JsString.lit "default".

(** [:dataSource] of the table. *)
Definition dataSource (u : UserManagement) : list UserRecord.t := users u.

(** [:disabled] of the delete button of a row. *)
Definition deleteDisabled (record : UserRecord.t) (s : S) : bool :=
  (strict_eq (UserRecord.id record) (userId s)
   || (JsString.eqb (UserRecord.role record) (JsString.lit "superadmin")
       && negb (JsString.eqb (userRole s) (JsString.lit "superadmin"))))%bool.

(** [v-if] of the password inputs and of the change-password checkbox. *)
Definition passwordInputsRendered (u : UserManagement) : bool :=
  (negb (editMode u) || displayPasswordFields u)%bool.

Definition passwordToggleRendered (u : UserManagement) : bool := editMode u.

(** [:confirmLoading] of the modal: its ok button is busy, and cannot be
    pressed, while this holds. *)
Definition confirmLoading (u : UserManagement) : bool := loading u.

End Component.

(* ================================================================= *)
(** ** The component as a transition system

    What the user can do with the rendered template, one action per control.
    A control that the template does not render ([v-if]) or renders disabled
    or busy ([:disabled], [:confirmLoading]) cannot be used.  Watchers run
    once the action is done. *)

Inductive Action : Type :=
| ClickAdd
| ClickEdit (row : nat)
| ClickDelete (row : nat) (answer : Answer)
| InputUsername (s : jsstring)
| InputPassword (s : jsstring)
| InputConfirmPassword (s : jsstring)
| CheckDisplayPassword (checked : bool)
| SelectRole (r : jsstring)
| ModalOk
| ModalCancel.

Section Interface.

Context {S : Type} {userStore : UserStore S}.

Definition role_offered (s : S) (r : jsstring) : bool :=
  (JsString.eqb r (JsString.lit "user")
   || (isSuperAdmin s
       && (JsString.eqb r (JsString.lit "admin")
           || JsString.eqb r (JsString.lit "superadmin"))))%bool.

Definition enabled (a : Action) (w : World S) : bool :=
  match a with
  | ClickEdit row =>
      match nth_error (dataSource (um w)) row with
      | Some _ => true
      | None => false
      end
  | ClickDelete row _ =>
      match nth_error (dataSource (um w)) row with
      | Some record => negb (deleteDisabled record (store w))
      | None => false
      end
  | InputPassword _ | InputConfirmPassword _ => passwordInputsRendered (um w)
  | CheckDisplayPassword _ => passwordToggleRendered (um w)
  | SelectRole r => role_offered (store w) r
  | ModalOk => negb (confirmLoading (um w))
  | ClickAdd | InputUsername _ | ModalCancel => true
  end.

Definition perform (a : Action) : M unit :=
  match a with
  | ClickAdd => showAddUserModal
  | ClickEdit row =>
      fun w =>
        match nth_error (dataSource (um w)) row with
        | Some record => showEditUserModal record w
        | None => ret tt w
        end
  | ClickDelete row answer =>
      fun w =>
        match nth_error (dataSource (um w)) row with
        | Some record => confirmDeleteUser record answer w
        | None => ret tt w
        end
  | InputUsername s =>
      assign (fun u => with_form (form_with_username s (form u)) u)
  | InputPassword s =>
      assign (fun u => with_form (form_with_password s (form u)) u)
  | InputConfirmPassword s =>
      assign (fun u => with_form (form_with_confirmPassword s (form u)) u)
  | CheckDisplayPassword checked =>
      assign (with_displayPasswordFields checked)
  | SelectRole r =>
      assign (fun u => with_form (form_with_role r (form u)) u)
  | ModalOk => handleUserFormSubmit
  | ModalCancel => assign (with_modalVisible false)
  end.

(** The watcher is called with the new value when the watched value has
    changed. *)
Definition flush_watchers (old : bool) (w : World S) : World S :=
  let newVal := displayPasswordFields (um w) in
  if Bool.eqb old newVal then w
  else snd (watch_displayPasswordFields newVal w).

(** An exception that leaves a handler goes to the error handler of the
    framework; the component goes on from the state the handler left. *)
Definition step (a : Action) (w : World S) : World S :=
  flush_watchers (displayPasswordFields (um w)) (snd (perform a w)).

(** The component once mounted on a store in state [s]. *)
Definition mounted (s : S) : World S :=
  snd (onMounted {| um := initial_userManagement; store := s; log := [] |}).

(** The states the component can be in: it is mounted, the user acts on the
    controls that can be used, and the store may change behind the
    component's back. *)
Inductive reachable : World S -> Prop :=
| reach_mounted (s : S) : reachable (mounted s)
| reach_step (a : Action) (w : World S) :
    reachable w -> enabled a w = true -> reachable (step a w)
| reach_store (s' : S) (w : World S) :
    reachable w -> reachable {| um := um w; store := s'; log := log w |}.

End Interface.

(* ================================================================= *)
(** ** A store with scripted answers

    Each operation takes the next answer of the script: [true] resolves
    (the list operation with [listing]), [false] rejects; an exhausted
    script rejects. *)

Module Scripted.

Record t : Type := {
  script : list bool;
  listing : list UserRecord.t;
  me : JsVal;
  myRole : jsstring
}.

Definition network_error : JsError :=
  {| message := Some (JsString.lit "Network Error") |}.

Definition next {A} (a : A) (s : t) : Settled A * t :=
  match script s with
  | true :: rest =>
      (Resolved a,
       {| script := rest; listing := listing s; me := me s;
          myRole := myRole s |})
  | false :: rest =>
      (Rejected network_error,
       {| script := rest; listing := listing s; me := me s;
          myRole := myRole s |})
  | [] => (Rejected network_error, s)
  end.

#[global] Instance userStore : UserStore t := {|
  getUsers := fun s => next (listing s) s;
  createUser := fun _ s => next tt s;
  updateUser := fun _ _ s => next tt s;
  deleteUser := fun _ s => next tt s;
  userId := me;
  userRole := myRole;
  isSuperAdmin := fun s => JsString.eqb (myRole s) (JsString.lit "superadmin")
|}.

Definition alice : UserRecord.t :=
  {| UserRecord.id := JNum 1;
     UserRecord.username := JsString.lit "alice";
     UserRecord.role := JsString.lit "admin";
     UserRecord.created_at := None;
     UserRecord.last_login := None |}.

Definition root : UserRecord.t :=
  {| UserRecord.id := JNum 2;
     UserRecord.username := JsString.lit "root";
     UserRecord.role := JsString.lit "superadmin";
     UserRecord.created_at := None;
     UserRecord.last_login := None |}.

(** Logged in as alice, an admin. *)
Definition server (answers : list bool) : t :=
  {| script := answers; listing := [alice; root]; me := JNum 1;
     myRole := JsString.lit "admin" |}.

(** The component mounted on a server that answers the first list call. *)
Definition start (answers : list bool) : World t :=
  mounted (server (true :: answers)).

(** The add form, filled in with the given username and passwords. *)
Definition adding (answers : list bool) (name pw1 pw2 : string) : World t :=
  step (InputConfirmPassword (JsString.lit pw2))
    (step (InputPassword (JsString.lit pw1))
       (step (InputUsername (JsString.lit name))
          (step ClickAdd (start answers)))).

(** The edit form of the first row, as it opens. *)
Definition editing (answers : list bool) : World t :=
  step (ClickEdit 0) (start answers).

(** The edit form of the first row with the password section turned on and
    filled in. *)
Definition changing_password (answers : list bool) (pw1 pw2 : string)
  : World t :=
  step (InputConfirmPassword (JsString.lit pw2))
    (step (InputPassword (JsString.lit pw1))
       (step (CheckDisplayPassword true) (editing answers))).

End Scripted.

(* ================================================================= *)
(** ** The checks of a submission, as the specification words them

    In order, stopping at the first that fails: the trimmed username is not
    empty; if the password section is shown, the password is not empty; if
    the password section is shown, the password equals its confirmation. *)

Inductive Rejection : Type :=
| UsernameRequired
| PasswordRequired
| PasswordsDoNotMatch.

Definition first_failed_check (u : UserManagement) : option Rejection :=
  if negb (JsString.truthy (JsString.trim (Form.username (form u))))
  then Some UsernameRequired
  else if (displayPasswordFields u
           && negb (JsString.truthy (Form.password (form u))))%bool
  then Some PasswordRequired
  else if (displayPasswordFields u
           && negb (JsString.eqb (Form.password (form u))
                                 (Form.confirmPassword (form u))))%bool
  then Some PasswordsDoNotMatch
  else None.

(** The notice of each rejection, as the source words it. *)
Definition rejection_notice (r : Rejection) : Event :=
  Notified NoticeError
    match r with
    | UsernameRequired => JsString.lit "用户名不能为空"
    | PasswordRequired => JsString.lit "密码不能为空"
    | PasswordsDoNotMatch => JsString.lit "两次输入的密码不一致"
    end
    None.

(** The call a submission that passes the checks makes, and its notice of
    success. *)
Definition submit_call (u : UserManagement) : StoreCall :=
  if editMode u then UpdateUser (editUserId u) (updateData u)
  else CreateUser (createData u).

Definition submit_success (u : UserManagement) : Event :=
  Notified NoticeSuccess
    (if editMode u then JsString.lit "用户更新成功"
     else JsString.lit "用户创建成功")
    None.

(** How the store answers a call that changes the accounts (the list call
    changes nothing). *)
Definition mutate {S : Type} {userStore : UserStore S}
    (c : StoreCall) (s : S) : Settled unit * S :=
  match c with
  | CreateUser data => createUser data s
  | UpdateUser i data => updateUser i data s
  | DeleteUser i => deleteUser i s
  | GetUsers => (Resolved tt, s)
  end.

(** The password fields are blank. *)
Definition passwords_blank (u : UserManagement) : Prop :=
  Form.password (form u) = [] /\ Form.confirmPassword (form u) = [].

(** What holds of the form in every state the component can be in: outside
    edit mode the password section is on, and when it is off the password
    fields are blank. *)
Definition form_invariant (u : UserManagement) : Prop :=
  (editMode u = false -> displayPasswordFields u = true)
  /\ (displayPasswordFields u = false -> passwords_blank u).

(** The form, the mode and the password section of [u'] are those of
    [u]. *)
Definition same_form (u u' : UserManagement) : Prop :=
  editMode u' = editMode u
  /\ displayPasswordFields u' = displayPasswordFields u
  /\ form u' = form u.

(* ================================================================= *)
(** ** Vocabulary for the properties of the workflow *)

(** Reading a property of an object literal. *)
Fixpoint get_prop (k : string) (o : JsObject) : option jsstring :=
  match o with
  | [] => None
  | (k', v) :: o' => if String.eqb k' k then Some v else get_prop k o'
  end.

(** The object a call hands to the store, if any. *)
Definition call_data (c : StoreCall) : JsObject :=
  match c with
  | CreateUser data | UpdateUser _ data => data
  | GetUsers | DeleteUser _ => []
  end.

(** Every call to the store in [l] was made with [loading] set. *)
Definition calls_while_loading (l : list Event) : bool :=
  forallb (fun e => match e with
                    | Awaited _ pending => loading pending
                    | _ => true
                    end) l.

(** No call of [deleteUser] is among the calls made in [l]. *)
Definition never_deletes (l : list Event) : bool :=
  forallb (fun c => match c with DeleteUser _ => false | _ => true end)
          (store_calls l).

(** The actions whose handler talks to the store. *)
Definition talks_to_store (a : Action) : bool :=
  match a with
  | ModalOk | ClickDelete _ _ => true
  | _ => false
  end.

(** What the store-facing handlers never write: the title of the modal, the
    mode, the user being edited, the form and the password section. *)
Definition setup (u : UserManagement)
  : jsstring * bool * JsVal * Form.t * bool :=
  (modalTitle u, editMode u, editUserId u, form u, displayPasswordFields u).

(** The title of the modal and the user being edited go with the mode. *)
Definition mode_coherent (u : UserManagement) : Prop :=
  if editMode u
  then modalTitle u = JsString.lit "编辑用户"
  else modalTitle u = JsString.lit "添加用户" /\ editUserId u = JNull.

(** The banner is empty or shows the message of a failed list call. *)
Definition banner_coherent (u : UserManagement) : Prop :=
  error u = None \/ error u = Some (JsString.lit "获取用户列表失败").

(** The component mounted on the scripted store with root, a superadmin,
    logged in. *)
Definition root_session (answers : list bool) : World Scripted.t :=
  mounted {| Scripted.script := true :: answers;
             Scripted.listing := [Scripted.alice; Scripted.root];
             Scripted.me := JNum 2;
             Scripted.myRole := JsString.lit "superadmin" |}.

(** A store that is down: every operation rejects, nobody is logged in. *)
Module Offline.

Inductive t : Type := Down.

Definition unreachable : JsError :=
  {| message := None |}.

#[global] Instance userStore : UserStore t := {|
  getUsers := fun s => (Rejected unreachable, s);
  createUser := fun _ s => (Rejected unreachable, s);
  updateUser := fun _ _ s => (Rejected unreachable, s);
  deleteUser := fun _ s => (Rejected unreachable, s);
  userId := fun _ => JNull;
  userRole := fun _ => [];
  isSuperAdmin := fun _ => false
|}.

(** The add form, opened on the component mounted on the store. *)
Definition adding : World t := step ClickAdd (mounted Down).

End Offline.

(* ================================================================= *)
(** ** Strings and identifiers *)

Lemma JsString_eqb_eq (a b : jsstring) : JsString.eqb a b = true <-> a = b.
Proof.
  revert b; induction a as [|x a IH]; intros [|y b]; simpl;
    try (split; [discriminate | discriminate]); try tauto.
  rewrite andb_true_iff, N.eqb_eq, IH.
  split; [intros [-> ->]; reflexivity | intros E; injection E; auto].
Qed.

Lemma JsString_eqb_neq (a b : jsstring) : JsString.eqb a b = false <-> a <> b.
Proof.
  rewrite <- JsString_eqb_eq.
  destruct (JsString.eqb a b); split; congruence.
Qed.

Lemma strict_eq_eq (a b : JsVal) : strict_eq a b = true <-> a = b.
Proof.
  destruct a, b; simpl; try (split; [discriminate | discriminate]);
    try tauto.
  - rewrite Z.eqb_eq; split; congruence.
  - rewrite JsString_eqb_eq; split; congruence.
Qed.

Lemma strict_eq_neq (a b : JsVal) : strict_eq a b = false <-> a <> b.
Proof.
  rewrite <- strict_eq_eq.
  destruct (strict_eq a b); split; congruence.
Qed.

Lemma trimStart_white_space (s : jsstring) :
  forallb JsString.is_white_space s = true -> JsString.trimStart s = [].
Proof.
  induction s as [|c s IH]; simpl; [reflexivity|].
  intros H; apply andb_true_iff in H as [Hc Hs].
  rewrite Hc; auto.
Qed.

Lemma trim_white_space (s : jsstring) :
  forallb JsString.is_white_space s = true -> JsString.trim s = [].
Proof.
  intros H; unfold JsString.trim.
  rewrite (trimStart_white_space s H); reflexivity.
Qed.

(* ================================================================= *)
(** ** Listing *)

(** Unfolds a handler down to the conditions it tests and the answers of
    the store; a call of [fetchUsers] from another handler is left for
    [fetchUsers_run]. *)
Ltac run :=
  cbv [handleUserFormSubmit confirmDeleteUser onOk onMounted
       notification_modal throw function_ try_catch_finally bind ret read assign emit
       return_ when await notification_error notification_success
       console_error
       um store log fst snd loading users error modalVisible modalTitle
       editMode editUserId form displayPasswordFields Form.username
       Form.password Form.confirmPassword Form.role
       with_loading with_users with_error with_modalVisible with_modalTitle
       with_editMode with_editUserId with_form with_displayPasswordFields
       form_with_username form_with_password form_with_confirmPassword
       form_with_role showAddUserModal showEditUserModal
       watch_displayPasswordFields dataSource passwordInputsRendered
       passwordToggleRendered Bool.eqb
       submit_call submit_success mutate updateData createData
       first_failed_check rejection_notice negb andb orb
       UserRecord.id UserRecord.username UserRecord.role] in *.

Section Properties.

Context {S : Type} {userStore : UserStore S}.

(** What a run of [fetchUsers] leaves, by the answer of the store. *)
Lemma fetchUsers_run (w : World S) :
  fetchUsers w =
  (Normal tt,
   let pending := with_loading true (um w) in
   match getUsers (store w) with
   | (Resolved us, s') =>
       {| um := with_loading false (with_error None (with_users us pending));
          store := s';
          log := log w ++ [Awaited GetUsers pending] |}
   | (Rejected e, s') =>
       {| um := with_loading false
                  (with_error (Some (JsString.lit "获取用户列表失败")) pending);
          store := s';
          log := (log w ++ [Awaited GetUsers pending])
                   ++ [ConsoleError (JsString.lit "获取用户列表失败:") e] |}
   end).
Proof.
  destruct w as [u s l]; unfold fetchUsers; run.
  destruct (getUsers s) as [[us|e] s']; reflexivity.
Qed.

(** C4. A run of [fetchUsers] ends normally.  It calls the list operation
    of the store, once, with [loading] set while the call is pending.  When
    the store resolves with a sequence, [users] is that sequence and [error]
    is cleared; when it rejects, [error] is the fixed message and [users] is
    what it was.  Either way [loading] is false at the end, and nothing else
    of the record has changed. *)
Theorem fetchUsers_contract (w : World S) :
  let pending := with_loading true (um w) in
  let w' := snd (fetchUsers w) in
  fst (fetchUsers w) = Normal tt
  /\ loading pending = true
  /\ store_calls (log w') = store_calls (log w) ++ [GetUsers]
  /\ loading (um w') = false
  /\ match getUsers (store w) with
     | (Resolved us, s') =>
         log w' = log w ++ [Awaited GetUsers pending]
         /\ users (um w') = us
         /\ error (um w') = None
         /\ um w' = with_loading false (with_error None (with_users us (um w)))
         /\ store w' = s'
     | (Rejected e, s') =>
         log w' = log w ++ [Awaited GetUsers pending;
                            ConsoleError (JsString.lit "获取用户列表失败:") e]
         /\ users (um w') = users (um w)
         /\ error (um w') = Some (JsString.lit "获取用户列表失败")
         /\ um w' = with_loading false
                      (with_error (Some (JsString.lit "获取用户列表失败"))
                                  (um w))
         /\ store w' = s'
     end.
Proof.
  intros pending w'; subst pending w'.
  rewrite fetchUsers_run; cbn [fst snd].
  destruct (getUsers (store w)) as [[us|e] s']; cbn [um store log];
    unfold store_calls; rewrite ?flat_map_app, <- ?app_assoc;
    repeat split; reflexivity.
Qed.

(* ================================================================= *)
(** ** Helpers of the template *)

(** C7. The delete button of a row is disabled exactly when the row is the
    current user's, or the row is a superadmin's and the current user is not
    a superadmin. *)
Theorem deleteDisabled_iff (record : UserRecord.t) (s : S) :
  deleteDisabled record s = true
  <-> (UserRecord.id record = userId s
       \/ (UserRecord.role record = JsString.lit "superadmin"
           /\ userRole s <> JsString.lit "superadmin")).
Proof.
  unfold deleteDisabled.
  rewrite orb_true_iff, andb_true_iff, negb_true_iff.
  rewrite strict_eq_eq, JsString_eqb_eq, JsString_eqb_neq.
  reflexivity.
Qed.

(** The button is enabled in all other cases. *)
Lemma deleteDisabled_false_iff (record : UserRecord.t) (s : S) :
  deleteDisabled record s = false
  <-> (UserRecord.id record <> userId s
       /\ (UserRecord.role record <> JsString.lit "superadmin"
           \/ userRole s = JsString.lit "superadmin")).
Proof.
  unfold deleteDisabled.
  rewrite orb_false_iff, andb_false_iff, negb_false_iff.
  rewrite strict_eq_neq, JsString_eqb_eq, JsString_eqb_neq.
  reflexivity.
Qed.

End Properties.

(** The label of a role that is none of the three is the role itself. *)
Lemma getRoleLabel_unknown (role : jsstring) :
  role <> JsString.lit "superadmin" ->
  role <> JsString.lit "admin" ->
  role <> JsString.lit "user" ->
  getRoleLabel role = role.
Proof.
  intros H1 H2 H3; unfold getRoleLabel.
  apply JsString_eqb_neq in H1, H2, H3.
  rewrite H1, H2, H3; reflexivity.
Qed.

(** C9, as the code has it.  [getRoleLabel] depends on its argument only; it
    gives the three roles their labels, which are the Chinese ones
    (超级管理员, 管理员, 普通用户), and gives back any other role as it is. *)
Theorem getRoleLabel_labels (role : jsstring) :
  (role = JsString.lit "superadmin" ->
   getRoleLabel role = JsString.lit "超级管理员")
  /\ (role = JsString.lit "admin" ->
      getRoleLabel role = JsString.lit "管理员")
  /\ (role = JsString.lit "user" ->
      getRoleLabel role = JsString.lit "普通用户")
  /\ (role <> JsString.lit "superadmin" ->
      role <> JsString.lit "admin" ->
      role <> JsString.lit "user" ->
      getRoleLabel role = role).
Proof.
  repeat split; try (intros ->; vm_compute; reflexivity).
  apply getRoleLabel_unknown.
Qed.

Lemma getRoleLabel_labels_witness :
  getRoleLabel (JsString.lit "superadmin") = JsString.lit "超级管理员"
  /\ getRoleLabel (JsString.lit "admin") = JsString.lit "管理员"
  /\ getRoleLabel (JsString.lit "user") = JsString.lit "普通用户"
  /\ getRoleLabel (JsString.lit "guest") = JsString.lit "guest".
Proof.
  split; [|split; [|split]].
  - apply (proj1 (getRoleLabel_labels (JsString.lit "superadmin")));
      reflexivity.
  - apply (proj1 (proj2 (getRoleLabel_labels (JsString.lit "admin"))));
      reflexivity.
  - apply (proj1 (proj2 (proj2 (getRoleLabel_labels (JsString.lit "user")))));
      reflexivity.
  - apply (proj2 (proj2 (proj2 (getRoleLabel_labels (JsString.lit "guest")))));
      vm_compute; discriminate.
Defined.

(** C9, as the specification words it, fails: the label of [superadmin] is
    not the English one. *)
Lemma getRoleLabel_not_english :
  ~ (getRoleLabel (JsString.lit "superadmin") = JsString.lit "Super Admin"
     /\ getRoleLabel (JsString.lit "admin") = JsString.lit "Admin"
     /\ getRoleLabel (JsString.lit "user") = JsString.lit "User").
Proof.
  intros [H _]; vm_compute in H; discriminate H.
Qed.

(* ================================================================= *)
(** ** Submitting the form *)

Section Submission.

Context {S : Type} {userStore : UserStore S}.

(** A submission that fails a check: one notice, and the [finally] block. *)
Lemma handleUserFormSubmit_rejected (w : World S) (r : Rejection) :
  first_failed_check (um w) = Some r ->
  handleUserFormSubmit w =
  (Normal tt,
   {| um := with_loading false (um w);
      store := store w;
      log := log w ++ [rejection_notice r] |}).
Proof.
  destruct w as [[ld us er mv mt em eid [fu fp fc fr] d] s l].
  intros H; run.
  destruct (JsString.truthy (JsString.trim fu)); run;
    [|injection H as <-; reflexivity].
  destruct d; run; [|discriminate].
  destruct (JsString.truthy fp); run; [|injection H as <-; reflexivity].
  destruct (JsString.eqb fp fc); run; [discriminate|].
  injection H as <-; reflexivity.
Qed.

(** A submission that passes the checks: the call, then by its answer
    either the notice of success, the list again and the modal closed, or
    the report of the failure. *)
Lemma handleUserFormSubmit_passed (w : World S) :
  first_failed_check (um w) = None ->
  handleUserFormSubmit w =
  (Normal tt,
   let pending := with_loading true (um w) in
   match mutate (submit_call (um w)) (store w) with
   | (Resolved _, s1) =>
       let w2 :=
         snd (fetchUsers
                {| um := pending; store := s1;
                   log := (log w ++ [Awaited (submit_call (um w)) pending])
                            ++ [submit_success (um w)] |}) in
       {| um := with_loading false (with_modalVisible false (um w2));
          store := store w2;
          log := log w2 |}
   | (Rejected e, s1) =>
       {| um := with_loading false pending;
          store := s1;
          log := ((log w ++ [Awaited (submit_call (um w)) pending])
                    ++ [ConsoleError (JsString.lit "用户操作失败:") e])
                   ++ [Notified NoticeError (JsString.lit "操作失败")
                         (Some (message_or e (JsString.lit "请稍后重试")))] |}
   end).
Proof.
  destruct w as [[ld us er mv mt em eid [fu fp fc fr] d] s l].
  intros H; run.
  destruct (JsString.truthy (JsString.trim fu)); run; [|discriminate].
  assert (Hpw : d = true ->
                JsString.truthy fp = true /\ JsString.eqb fp fc = true).
  { intros ->; run.
    destruct (JsString.truthy fp); [|discriminate].
    destruct (JsString.eqb fp fc); [split; reflexivity|discriminate]. }
  clear H.
  destruct d; run;
    [destruct (Hpw eq_refl) as [Hp Hc]; rewrite Hp; run; rewrite Hc; run|];
    clear Hpw;
    (destruct em; run; rewrite ?Hp; run;
     [destruct (updateUser _ _ _) as [[[]|e] s1]
     |destruct (createUser _ _) as [[[]|e] s1]];
     run; repeat rewrite fetchUsers_run; run; try reflexivity;
     destruct (getUsers s1) as [[us'|e'] s2]; reflexivity).
Qed.

End Submission.

(* ================================================================= *)
(** ** Deleting a user *)

Section Deletion.

Context {S : Type} {userStore : UserStore S}.

(** What a run of [confirmDeleteUser] leaves: the notice of the guard when
    the target is the current user, and otherwise nothing, the handler being
    left by the TypeError of [modal.confirm]. *)
Lemma confirmDeleteUser_run
    (user : UserRecord.t) (answer : Answer) (w : World S) :
  confirmDeleteUser user answer w =
  if strict_eq (UserRecord.id user) (userId (store w))
  then (Normal tt,
        {| um := um w; store := store w;
           log := log w
                    ++ [Notified NoticeError
                          (JsString.lit "不能删除自己的账户") None] |})
  else (Thrown undefined_confirm, w).
Proof.
  destruct w as [u s l], user as [i name r c ll]; run.
  destruct (strict_eq i (userId s)); reflexivity.
Qed.

(** What a run of the [onOk] callback leaves, by the answer of the store. *)
Lemma onOk_run (user : UserRecord.t) (w : World S) :
  onOk user w =
  (Normal tt,
   let pending := with_loading true (um w) in
   let call := DeleteUser (UserRecord.id user) in
   match deleteUser (UserRecord.id user) (store w) with
   | (Resolved _, s1) =>
       let w2 :=
         snd (fetchUsers
                {| um := pending; store := s1;
                   log := (log w ++ [Awaited call pending])
                            ++ [Notified NoticeSuccess
                                  (JsString.lit "用户删除成功") None] |})
       in
       {| um := with_loading false (um w2);
          store := store w2;
          log := log w2 |}
   | (Rejected e, s1) =>
       {| um := with_loading false pending;
          store := s1;
          log := ((log w ++ [Awaited call pending])
                    ++ [ConsoleError (JsString.lit "删除用户失败:") e])
                   ++ [Notified NoticeError (JsString.lit "删除失败")
                         (Some (message_or e
                                  (JsString.lit "请稍后重试")))] |}
   end).
Proof.
  destruct w as [u s l], user as [i name r c ll]; run.
  destruct (deleteUser i s) as [[[]|e] s1]; run;
    repeat rewrite fetchUsers_run; run; [|reflexivity].
  destruct (getUsers s1) as [[us'|e'] s2]; reflexivity.
Qed.

End Deletion.

(* ================================================================= *)
(** ** The form in the states the component can be in *)

Section Reachable.

Context {S : Type} {userStore : UserStore S}.

Lemma fetchUsers_same_form (w : World S) :
  same_form (um w) (um (snd (fetchUsers w))).
Proof.
  rewrite fetchUsers_run; cbn [snd].
  destruct (getUsers (store w)) as [[us|e] s']; repeat split.
Qed.

Lemma handleUserFormSubmit_same_form (w : World S) :
  same_form (um w) (um (snd (handleUserFormSubmit w))).
Proof.
  destruct (first_failed_check (um w)) as [r|] eqn:H.
  - rewrite (handleUserFormSubmit_rejected w H); repeat split.
  - rewrite (handleUserFormSubmit_passed w H); cbn [snd].
    destruct (mutate _ _) as [[[]|e] s1]; [|repeat split].
    rewrite fetchUsers_run; cbn [snd um].
    destruct (getUsers _) as [[us|e] s2]; repeat split.
Qed.

Lemma confirmDeleteUser_same_form
    (user : UserRecord.t) (answer : Answer) (w : World S) :
  same_form (um w) (um (snd (confirmDeleteUser user answer w))).
Proof.
  rewrite confirmDeleteUser_run.
  destruct (strict_eq _ _); repeat split.
Qed.

Lemma same_form_invariant (u u' : UserManagement) :
  same_form u u' -> form_invariant u -> form_invariant u'.
Proof.
  unfold same_form, form_invariant, passwords_blank.
  intros (-> & -> & ->); tauto.
Qed.

(** A handler that leaves the password section as it is wakes no watcher. *)
Lemma flush_watchers_same (old : bool) (w : World S) :
  displayPasswordFields (um w) = old -> flush_watchers old w = w.
Proof.
  intros <-; unfold flush_watchers.
  destruct (displayPasswordFields (um w)); reflexivity.
Qed.

Lemma mounted_form_invariant (s : S) : form_invariant (um (mounted s)).
Proof.
  unfold mounted, onMounted, function_.
  rewrite fetchUsers_run.
  destruct (getUsers _) as [[us|e] s']; cbn; split;
    (reflexivity || discriminate).
Qed.

Lemma step_form_invariant (a : Action) (w : World S) :
  enabled a w = true ->
  form_invariant (um w) -> form_invariant (um (step a w)).
Proof.
  unfold step; destruct a; cbn [perform enabled]; intros Hen Hinv.
  - (* add *)
    destruct w as [[ld us er mv mt em eid [fu fp fc fr] d] st l].
    destruct d; cbn; split; (reflexivity || discriminate).
  - (* edit *)
    destruct w as [[ld us er mv mt em eid [fu fp fc fr] d] st l].
    cbn [um dataSource users] in *.
    destruct (nth_error us row) as [record|]; [|discriminate].
    destruct d; cbn; split; try discriminate; split; reflexivity.
  - (* delete *)
    cbn [um] in *.
    destruct (nth_error (dataSource (um w)) row) as [record|];
      [|discriminate].
    pose proof (confirmDeleteUser_same_form record answer w) as Hsame.
    rewrite flush_watchers_same by apply (proj1 (proj2 Hsame)).
    exact (same_form_invariant Hsame Hinv).
  - (* username *)
    destruct w as [[ld us er mv mt em eid [fu fp fc fr] d] st l].
    destruct d; exact Hinv.
  - (* password *)
    destruct w as [[ld us er mv mt em eid [fu fp fc fr] d] st l].
    destruct Hinv as [Hadd _]; cbn in Hen, Hadd.
    destruct d; cbn; [split; [reflexivity|discriminate]|].
    destruct em; [discriminate|]; discriminate (Hadd eq_refl).
  - (* confirmation *)
    destruct w as [[ld us er mv mt em eid [fu fp fc fr] d] st l].
    destruct Hinv as [Hadd _]; cbn in Hen, Hadd.
    destruct d; cbn; [split; [reflexivity|discriminate]|].
    destruct em; [discriminate|]; discriminate (Hadd eq_refl).
  - (* checkbox *)
    destruct w as [[ld us er mv mt em eid [fu fp fc fr] d] st l].
    cbn in Hen; subst em.
    destruct Hinv as [_ Hoff].
    destruct d, checked; cbn; split; try discriminate;
      try (split; reflexivity).
    exact Hoff.
  - (* role *)
    destruct w as [[ld us er mv mt em eid [fu fp fc fr] d] st l].
    destruct d; exact Hinv.
  - (* ok *)
    pose proof (handleUserFormSubmit_same_form w) as Hsame.
    rewrite flush_watchers_same by apply (proj1 (proj2 Hsame)).
    exact (same_form_invariant Hsame Hinv).
  - (* cancel *)
    destruct w as [[ld us er mv mt em eid [fu fp fc fr] d] st l].
    destruct d; exact Hinv.
Qed.

Lemma reachable_form_invariant (w : World S) :
  reachable w -> form_invariant (um w).
Proof.
  induction 1 as [s|a w Hw IH Hen|s' w Hw IH].
  - apply mounted_form_invariant.
  - apply step_form_invariant; assumption.
  - exact IH.
Qed.

(** No handler leaves [loading] set: between two actions the component is
    idle. *)
Lemma flush_watchers_loading (old : bool) (w : World S) :
  loading (um (flush_watchers old w)) = loading (um w).
Proof.
  unfold flush_watchers.
  destruct (Bool.eqb old _); [reflexivity|].
  destruct (displayPasswordFields (um w)); reflexivity.
Qed.

Lemma handleUserFormSubmit_idle (w : World S) :
  loading (um (snd (handleUserFormSubmit w))) = false.
Proof.
  destruct (first_failed_check (um w)) as [r|] eqn:H.
  - rewrite (handleUserFormSubmit_rejected w H); reflexivity.
  - rewrite (handleUserFormSubmit_passed w H); cbn [snd].
    destruct (mutate _ _) as [[[]|e] s1]; reflexivity.
Qed.

Lemma confirmDeleteUser_idle
    (user : UserRecord.t) (answer : Answer) (w : World S) :
  loading (um w) = false ->
  loading (um (snd (confirmDeleteUser user answer w))) = false.
Proof.
  intros Hidle; rewrite confirmDeleteUser_run.
  destruct (strict_eq _ _); exact Hidle.
Qed.

Lemma step_idle (a : Action) (w : World S) :
  loading (um w) = false -> loading (um (step a w)) = false.
Proof.
  intros Hidle; unfold step; rewrite flush_watchers_loading.
  destruct a; cbn [perform];
    try (destruct w as [[ld us er mv mt em eid [fu fp fc fr] d] st l];
         exact Hidle).
  - destruct (nth_error _ _); [|exact Hidle].
    destruct w as [[ld us er mv mt em eid [fu fp fc fr] d] st l];
      exact Hidle.
  - destruct (nth_error _ _); [|exact Hidle].
    apply (confirmDeleteUser_idle _ _ _ Hidle).
  - apply handleUserFormSubmit_idle.
Qed.

Lemma reachable_idle (w : World S) :
  reachable w -> loading (um w) = false.
Proof.
  induction 1 as [s|a w Hw IH Hen|s' w Hw IH].
  - unfold mounted, onMounted, function_.
    rewrite fetchUsers_run; cbn [snd um store].
    destruct (getUsers s) as [[us|e] s']; reflexivity.
  - apply (step_idle a w IH).
  - exact IH.
Qed.

End Reachable.

(* ================================================================= *)
(** ** The contracts of the handlers *)

Lemma store_calls_app (l1 l2 : list Event) :
  store_calls (l1 ++ l2) = store_calls l1 ++ store_calls l2.
Proof. apply flat_map_app. Qed.

Lemma with_loading_same (u : UserManagement) :
  loading u = false -> with_loading false u = u.
Proof. destruct u; cbn; intros ->; reflexivity. Qed.

Section Contracts.

Context {S : Type} {userStore : UserStore S}.

Lemma rejected_no_call (w : World S) (r : Rejection) :
  first_failed_check (um w) = Some r ->
  store_calls (log (snd (handleUserFormSubmit w))) = store_calls (log w).
Proof.
  intros H; rewrite (handleUserFormSubmit_rejected w H); cbn [snd log].
  rewrite store_calls_app; apply app_nil_r.
Qed.

Lemma blank_username_rejected (u : UserManagement) :
  forallb JsString.is_white_space (Form.username (form u)) = true ->
  first_failed_check u = Some UsernameRequired.
Proof.
  intros H; unfold first_failed_check.
  rewrite (trim_white_space _ H); reflexivity.
Qed.

Lemma mismatch_rejected (u : UserManagement) :
  form_invariant u ->
  Form.password (form u) <> Form.confirmPassword (form u) ->
  first_failed_check u <> None.
Proof.
  intros [_ Hoff] Hneq; unfold first_failed_check.
  destruct (JsString.truthy _); cbn [negb]; [|discriminate].
  destruct (displayPasswordFields u).
  - apply JsString_eqb_neq in Hneq; rewrite Hneq.
    destruct (JsString.truthy _); discriminate.
  - destruct (Hoff eq_refl) as [Hp Hc]; congruence.
Qed.

(** C2. The handler applies the three checks of the specification in their
    order and stops at the first that fails: it then gives the notice of
    that check and nothing else, and makes no call to the store.  When no
    check fails, the next thing it does is the call to create or update.  In
    particular a blank username is never submitted, and, in the states the
    component can be in, neither are passwords that differ. *)
Theorem submit_validation_short_circuits (w : World S) :
  let w' := snd (handleUserFormSubmit w) in
  (forall r, first_failed_check (um w) = Some r ->
     log w' = log w ++ [rejection_notice r]
     /\ store w' = store w
     /\ store_calls (log w') = store_calls (log w))
  /\ (first_failed_check (um w) = None ->
      exists rest,
        log w' = log w ++ Awaited (submit_call (um w))
                                  (with_loading true (um w)) :: rest)
  /\ (forallb JsString.is_white_space (Form.username (form (um w))) = true ->
      store_calls (log w') = store_calls (log w))
  /\ (reachable w ->
      Form.password (form (um w)) <> Form.confirmPassword (form (um w)) ->
      store_calls (log w') = store_calls (log w)).
Proof.
  intros w'; subst w'; repeat split.
  - rewrite (handleUserFormSubmit_rejected w H); reflexivity.
  - rewrite (handleUserFormSubmit_rejected w H); reflexivity.
  - apply (rejected_no_call w H).
  - intros H; rewrite (handleUserFormSubmit_passed w H); cbn [snd].
    destruct (mutate _ _) as [[[]|e] s1].
    + rewrite fetchUsers_run; cbn [snd um store log].
      destruct (getUsers s1) as [[us|e] s2]; cbn [log];
        rewrite <- !app_assoc; eexists; reflexivity.
    + cbn [log]; rewrite <- !app_assoc; eexists; reflexivity.
  - intros H.
    apply (rejected_no_call w (blank_username_rejected _ H)).
  - intros Hw Hneq.
    destruct (first_failed_check (um w)) as [r|] eqn:H.
    + apply (rejected_no_call w H).
    + destruct (mismatch_rejected (reachable_form_invariant Hw) Hneq H).
Qed.

(** C3. In edit mode, a submission that passes the checks calls
    [updateUser] once, for the user being edited, with an object made of
    the trimmed username and the role, followed by the password exactly when
    the password section is on and the password is not empty.  With the
    section off the object has no [password] key. *)
Theorem update_payload (w : World S) :
  editMode (um w) = true ->
  first_failed_check (um w) = None ->
  let u := um w in
  let payload :=
    [("username"%string, JsString.trim (Form.username (form u)));
     ("role"%string, Form.role (form u))]
      ++ (if (displayPasswordFields u
              && JsString.truthy (Form.password (form u)))%bool
          then [("password"%string, Form.password (form u))]
          else []) in
  let w' := snd (handleUserFormSubmit w) in
  (exists rest,
     log w' = log w ++ Awaited (UpdateUser (editUserId u) payload)
                               (with_loading true u) :: rest
     /\ forallb (fun c => negb (is_mutation c)) (store_calls rest) = true)
  /\ has_key "password" payload
     = (displayPasswordFields u && JsString.truthy (Form.password (form u)))%bool
  /\ (displayPasswordFields u = false -> has_key "password" payload = false).
Proof.
  intros Hedit H u payload w'; subst u payload w'.
  assert (Hpayload :
    updateData (um w) =
    [("username"%string, JsString.trim (Form.username (form (um w))));
     ("role"%string, Form.role (form (um w)))]
      ++ (if (displayPasswordFields (um w)
              && JsString.truthy (Form.password (form (um w))))%bool
          then [("password"%string, Form.password (form (um w)))]
          else [])).
  { unfold updateData.
    destruct (displayPasswordFields (um w) && _)%bool; reflexivity. }
  rewrite <- Hpayload.
  split; [|split].
  - rewrite (handleUserFormSubmit_passed w H); cbn [snd].
    unfold submit_call; rewrite Hedit; cbn [mutate].
    destruct (updateUser _ _ _) as [[[]|e] s1].
    + rewrite fetchUsers_run; cbn [snd um store log].
      destruct (getUsers s1) as [[us|e] s2]; cbn [log];
        rewrite <- !app_assoc; eexists; split; reflexivity.
    + cbn [log]; rewrite <- !app_assoc; eexists; split; reflexivity.
  - rewrite Hpayload.
    destruct (displayPasswordFields (um w) && _)%bool; reflexivity.
  - intros Hoff; rewrite Hpayload, Hoff; reflexivity.
Qed.

(** C8. A submission that fails a check ends normally, makes no call to
    the store and gives the notice of the check.  It leaves [error], [users]
    and [modalVisible] as they were; to [loading] its [finally] block writes
    false, which is what [loading] holds whenever the form can be submitted
    (in every state the component can be in, and whenever the ok button can
    be pressed), so that [loading], and the record as a whole, are what they
    were. *)
Theorem rejected_submission_frame (w : World S) (r : Rejection) :
  first_failed_check (um w) = Some r ->
  let w' := snd (handleUserFormSubmit w) in
  (fst (handleUserFormSubmit w) = Normal tt
   /\ log w' = log w ++ [rejection_notice r]
   /\ store_calls (log w') = store_calls (log w)
   /\ store w' = store w
   /\ error (um w') = error (um w)
   /\ users (um w') = users (um w)
   /\ modalVisible (um w') = modalVisible (um w)
   /\ um w' = with_loading false (um w))
  /\ (reachable w \/ enabled ModalOk w = true ->
      loading (um w') = loading (um w) /\ um w' = um w).
Proof.
  intros H w'; subst w'.
  pose proof (rejected_no_call w H) as Hcalls.
  rewrite (handleUserFormSubmit_rejected w H) in *; cbn [fst snd um log store].
  split; [repeat split; assumption|].
  intros Hw.
  assert (Hidle : loading (um w) = false).
  { destruct Hw as [Hw|Hw]; [apply (reachable_idle Hw)|].
    apply negb_true_iff in Hw; exact Hw. }
  rewrite (with_loading_same _ Hidle); split; reflexivity.
Qed.

(** C10. [fetchUsers] always ends normally.  So when the call of a
    submission resolves, the handler ends normally with the notice of
    success given and the modal closed, whatever the list operation answers
    afterwards: the only thing a failed list operation adds is its own entry
    in the console. *)
Theorem refetch_failure_contained (w : World S) (s1 : S) :
  first_failed_check (um w) = None ->
  mutate (submit_call (um w)) (store w) = (Resolved tt, s1) ->
  let pending := with_loading true (um w) in
  let w' := snd (handleUserFormSubmit w) in
  (forall w0 : World S, fst (fetchUsers w0) = Normal tt)
  /\ fst (handleUserFormSubmit w) = Normal tt
  /\ modalVisible (um w') = false
  /\ loading (um w') = false
  /\ log w' =
     log w
       ++ [Awaited (submit_call (um w)) pending; submit_success (um w);
           Awaited GetUsers pending]
       ++ match fst (getUsers s1) with
          | Resolved _ => []
          | Rejected e =>
              [ConsoleError (JsString.lit "获取用户列表失败:") e]
          end.
Proof.
  intros H Hcall pending w'; subst pending w'.
  split; [intros w0; rewrite fetchUsers_run; reflexivity|].
  rewrite (handleUserFormSubmit_passed w H); cbn [fst snd].
  rewrite Hcall, fetchUsers_run; cbn [snd um store log].
  destruct (getUsers s1) as [[us|e] s2]; cbn [fst um store log];
    rewrite <- !app_assoc; repeat split.
Qed.

End Contracts.

Section Workflow.

Context {S : Type} {userStore : UserStore S}.

(** C1, as the code has it.  When the target is the current user, the
    delete action gives the fixed notice and nothing else: no dialog, no
    call.  When it is not, the handler reads [confirm] off
    [notification.modal], which is [undefined], and is left by a TypeError
    whatever the user would answer: no dialog is shown, [deleteUser] is not
    called and nothing is written. *)
Theorem confirmDeleteUser_throws
    (user : UserRecord.t) (answer : Answer) (w : World S) :
  let w' := snd (confirmDeleteUser user answer w) in
  (UserRecord.id user <> userId (store w) ->
   fst (confirmDeleteUser user answer w) = Thrown undefined_confirm
   /\ w' = w)
  /\ (UserRecord.id user = userId (store w) ->
      fst (confirmDeleteUser user answer w) = Normal tt
      /\ log w' = log w ++ [Notified NoticeError
                              (JsString.lit "不能删除自己的账户") None]
      /\ store w' = store w
      /\ um w' = um w).
Proof.
  intros w'; subst w'; rewrite confirmDeleteUser_run.
  split; intros Hid.
  - apply strict_eq_neq in Hid; rewrite Hid; split; reflexivity.
  - apply strict_eq_eq in Hid; rewrite Hid; repeat split.
Qed.

(** C5. The list is fetched once when the component is mounted, and once
    more after each call to create or update that resolves, and, in the
    [onOk] callback written for the deletion, after the call to delete when
    it resolves; the table then shows what that list call returned (and
    what it showed before when the list call itself is rejected). *)
Theorem list_refetched :
  (forall s : S,
      store_calls (log (mounted s)) = [GetUsers]
      /\ dataSource (um (mounted s))
         = match fst (getUsers s) with
           | Resolved us => us
           | Rejected _ => []
           end)
  /\ (forall (w : World S) (s1 : S),
         first_failed_check (um w) = None ->
         mutate (submit_call (um w)) (store w) = (Resolved tt, s1) ->
         let w' := snd (handleUserFormSubmit w) in
         store_calls (log w')
         = store_calls (log w) ++ [submit_call (um w); GetUsers]
         /\ dataSource (um w')
            = match fst (getUsers s1) with
              | Resolved us => us
              | Rejected _ => dataSource (um w)
              end)
  /\ (forall (w : World S) (user : UserRecord.t) (s1 : S),
         deleteUser (UserRecord.id user) (store w) = (Resolved tt, s1) ->
         let w' := snd (onOk user w) in
         store_calls (log w')
         = store_calls (log w) ++ [DeleteUser (UserRecord.id user); GetUsers]
         /\ dataSource (um w')
            = match fst (getUsers s1) with
              | Resolved us => us
              | Rejected _ => dataSource (um w)
              end).
Proof.
  split; [|split].
  - intros s; unfold mounted, onMounted, function_.
    rewrite fetchUsers_run; cbn [snd um store log].
    destruct (getUsers s) as [[us|e] s']; split; reflexivity.
  - intros w s1 H Hcall w'; subst w'.
    rewrite (handleUserFormSubmit_passed w H); cbn [snd].
    rewrite Hcall, fetchUsers_run; cbn [snd um store log].
    destruct (getUsers s1) as [[us|e] s2]; cbn [fst um store log];
      rewrite !store_calls_app, <- !app_assoc; split; reflexivity.
  - intros w user s1 Hcall w'; subst w'.
    rewrite onOk_run; cbn [snd].
    rewrite Hcall, fetchUsers_run; cbn [snd um store log].
    destruct (getUsers s1) as [[us|e] s2]; cbn [fst um store log];
      rewrite !store_calls_app, <- !app_assoc; split; reflexivity.
Qed.

(** C6. Whatever turns the password section from on to off leaves both
    password fields empty.  In every state the component can be in, a
    section that is off goes with empty password fields; so turning it back
    on shows them blank. *)
Theorem password_fields_cleared :
  (forall (a : Action) (w : World S),
      displayPasswordFields (um w) = true ->
      displayPasswordFields (um (step a w)) = false ->
      passwords_blank (um (step a w)))
  /\ (forall w : World S,
         reachable w ->
         displayPasswordFields (um w) = false ->
         passwords_blank (um w))
  /\ (forall w : World S,
         reachable w ->
         displayPasswordFields (um w) = false ->
         let w' := step (CheckDisplayPassword true) w in
         enabled (CheckDisplayPassword true) w = true
         /\ displayPasswordFields (um w') = true
         /\ passwords_blank (um w')).
Proof.
  split; [|split].
  - intros a w Hon; unfold step, flush_watchers; rewrite Hon.
    destruct (displayPasswordFields (um (snd (perform a w)))) eqn:Hnew;
      cbn [Bool.eqb].
    + congruence.
    + intros _; split; reflexivity.
  - intros w Hw Hoff.
    apply (proj2 (reachable_form_invariant Hw) Hoff).
  - intros w Hw Hoff w'; subst w'.
    destruct (reachable_form_invariant Hw) as [Hadd Hblank].
    specialize (Hblank Hoff).
    destruct w as [[ld us er mv mt em eid [fu fp fc fr] d] st l].
    cbn in Hoff, Hadd, Hblank |- *; subst d.
    destruct em; [|discriminate (Hadd eq_refl)].
    repeat split; apply Hblank.
Qed.

End Workflow.

(* ================================================================= *)
(** ** The contracts at work on the scripted store *)

Example lit_code_units :
  JsString.lit "管理员 a" = [0x7BA1; 0x7406; 0x5458; 0x20; 0x61]%N.
Proof. reflexivity. Qed.

Example trim_both_ends :
  JsString.trim (JsString.lit "  a b  ") = JsString.lit "a b".
Proof. reflexivity. Qed.

(** Adding alice: create is called with her name, password and role, the
    list is fetched again and the modal is closed. *)
Example add_alice :
  let w' := snd (handleUserFormSubmit
                   (Scripted.adding [true; true] "alice" "p1" "p1")) in
  store_calls (log w')
  = [GetUsers;
     CreateUser [("username"%string, JsString.lit "alice");
                 ("password"%string, JsString.lit "p1");
                 ("role"%string, JsString.lit "user")];
     GetUsers]
  /\ modalVisible (um w') = false.
Proof. split; reflexivity. Qed.

(** Renaming the first row with the password section off: update is called
    with the name and the role of the row, and no password. *)
Example rename_first_row :
  store_calls
    (log (snd (handleUserFormSubmit
                 (step (InputUsername (JsString.lit "bob"))
                    (Scripted.editing [true; true])))))
  = [GetUsers;
     UpdateUser (JNum 1) [("username"%string, JsString.lit "bob");
                          ("role"%string, JsString.lit "admin")];
     GetUsers].
Proof. reflexivity. Qed.

(** An admin can delete neither their own row nor a superadmin's. *)
Example admin_delete_controls :
  deleteDisabled Scripted.alice (Scripted.server []) = true
  /\ deleteDisabled Scripted.root (Scripted.server []) = true.
Proof. split; reflexivity. Qed.

Lemma start_reachable (answers : list bool) :
  reachable (Scripted.start answers).
Proof. apply reach_mounted. Defined.

Lemma adding_reachable (answers : list bool) (name pw1 pw2 : string) :
  reachable (Scripted.adding answers name pw1 pw2).
Proof.
  unfold Scripted.adding.
  repeat (apply reach_step; [|reflexivity]).
  apply start_reachable.
Defined.

Lemma editing_reachable (answers : list bool) :
  reachable (Scripted.editing answers).
Proof.
  unfold Scripted.editing.
  apply reach_step; [apply start_reachable|reflexivity].
Defined.

Lemma confirmDeleteUser_throws_witness :
  confirmDeleteUser Scripted.alice PressOk (root_session [true; true])
  = (Thrown undefined_confirm, root_session [true; true])
  /\ log (snd (confirmDeleteUser Scripted.root PressOk
                 (root_session [true; true])))
     = log (root_session [true; true])
         ++ [Notified NoticeError (JsString.lit "不能删除自己的账户") None].
Proof.
  split.
  - destruct (proj1 (confirmDeleteUser_throws Scripted.alice PressOk
                       (root_session [true; true])))
      as [Hthrown Hworld].
    + vm_compute; discriminate.
    + rewrite (surjective_pairing (confirmDeleteUser _ _ _)).
      rewrite Hthrown, Hworld; reflexivity.
  - apply (proj2 (confirmDeleteUser_throws Scripted.root PressOk
                    (root_session [true; true]))).
    reflexivity.
Defined.

Lemma submit_validation_short_circuits_witness :
  log (snd (handleUserFormSubmit (Scripted.adding [true; true] "  " "p1" "p2")))
  = log (Scripted.adding [true; true] "  " "p1" "p2")
      ++ [rejection_notice UsernameRequired]
  /\ store_calls
       (log (snd (handleUserFormSubmit
                    (Scripted.adding [true; true] "alice" "p1" "p2"))))
     = store_calls (log (Scripted.adding [true; true] "alice" "p1" "p2")).
Proof.
  split.
  - apply (proj1 (submit_validation_short_circuits
                    (Scripted.adding [true; true] "  " "p1" "p2"))).
    vm_compute; reflexivity.
  - apply (proj2 (proj2 (proj2 (submit_validation_short_circuits
                    (Scripted.adding [true; true] "alice" "p1" "p2"))))).
    + apply adding_reachable.
    + vm_compute; discriminate.
Defined.

Lemma update_payload_witness :
  exists rest,
    log (snd (handleUserFormSubmit (Scripted.editing [true; true])))
    = log (Scripted.editing [true; true])
        ++ Awaited (UpdateUser (JNum 1)
                      [("username"%string, JsString.lit "alice");
                       ("role"%string, JsString.lit "admin")])
                   (with_loading true (um (Scripted.editing [true; true])))
             :: rest.
Proof.
  destruct (proj1 (@update_payload _ _ (Scripted.editing [true; true])
                     eq_refl eq_refl))
    as (rest & Hlog & _).
  exists rest; exact Hlog.
Defined.

Lemma rejected_submission_frame_witness :
  um (snd (handleUserFormSubmit (Scripted.adding [true] "" "p1" "p1")))
  = um (Scripted.adding [true] "" "p1" "p1").
Proof.
  apply (proj2 (@rejected_submission_frame _ _
                  (Scripted.adding [true] "" "p1" "p1") UsernameRequired
                  eq_refl)).
  left; apply adding_reachable.
Defined.

Lemma refetch_failure_contained_witness :
  modalVisible
    (um (snd (handleUserFormSubmit
                (Scripted.adding [true; false] "alice" "p1" "p1"))))
  = false.
Proof.
  apply (@refetch_failure_contained _ _
           (Scripted.adding [true; false] "alice" "p1" "p1")
           (Scripted.server [false])).
  - vm_compute; reflexivity.
  - vm_compute; reflexivity.
Defined.

Lemma list_refetched_witness :
  store_calls
    (log (snd (handleUserFormSubmit
                 (Scripted.adding [true; true] "bob" "p1" "p1"))))
  = store_calls (log (Scripted.adding [true; true] "bob" "p1" "p1"))
      ++ [submit_call (um (Scripted.adding [true; true] "bob" "p1" "p1"));
          GetUsers]
  /\ store_calls
       (log (snd (onOk Scripted.alice (root_session [true; true]))))
     = store_calls (log (root_session [true; true]))
         ++ [DeleteUser (JNum 1); GetUsers].
Proof.
  split.
  - apply (proj1 (proj2 list_refetched)
             (Scripted.adding [true; true] "bob" "p1" "p1")
             (Scripted.server [true])).
    + vm_compute; reflexivity.
    + vm_compute; reflexivity.
  - eapply (proj2 (proj2 list_refetched)
              (root_session [true; true]) Scripted.alice).
    vm_compute; reflexivity.
Defined.

Lemma password_fields_cleared_witness :
  passwords_blank
    (um (step (CheckDisplayPassword false)
           (Scripted.changing_password [] "p1" "p2")))
  /\ passwords_blank (um (Scripted.editing []))
  /\ passwords_blank
       (um (step (CheckDisplayPassword true) (Scripted.editing []))).
Proof.
  split; [|split].
  - apply (proj1 (@password_fields_cleared _ Scripted.userStore)).
    + vm_compute; reflexivity.
    + vm_compute; reflexivity.
  - apply (proj1 (proj2 (@password_fields_cleared _ Scripted.userStore))).
    + apply editing_reachable.
    + vm_compute; reflexivity.
  - apply (proj2 (proj2 (@password_fields_cleared _ Scripted.userStore))
             (Scripted.editing [])).
    + apply editing_reachable.
    + vm_compute; reflexivity.
Defined.

(* ================================================================= *)
(** ** Further properties: what [trim] leaves *)

Lemma trimStart_head (s : jsstring) (c : N) (r : jsstring) :
  JsString.trimStart s = c :: r -> JsString.is_white_space c = false.
Proof.
  induction s as [|x s IH]; cbn [JsString.trimStart]; [discriminate|].
  destruct (JsString.is_white_space x) eqn:Hx; [exact IH|].
  intros E; injection E as <- _; exact Hx.
Qed.

Lemma trimStart_fixed (c : N) (r : jsstring) :
  JsString.is_white_space c = false -> JsString.trimStart (c :: r) = c :: r.
Proof. intros H; cbn [JsString.trimStart]; rewrite H; reflexivity. Qed.

(** [trimStart] drops a prefix made of white space. *)
Lemma trimStart_split (s : jsstring) :
  exists ws, s = ws ++ JsString.trimStart s
             /\ forallb JsString.is_white_space ws = true.
Proof.
  induction s as [|x s (ws & E & Hws)]; [exists []; split; reflexivity|].
  cbn [JsString.trimStart].
  destruct (JsString.is_white_space x) eqn:Hx.
  - exists (x :: ws); cbn [app forallb]; rewrite Hx, Hws, <- E.
    split; reflexivity.
  - exists []; split; reflexivity.
Qed.

(** [trimEnd] drops a suffix made of white space. *)
Lemma trimEnd_split (s : jsstring) :
  exists ws, s = JsString.trimEnd s ++ ws
             /\ forallb JsString.is_white_space ws = true.
Proof.
  destruct (trimStart_split (rev s)) as (ws & E & Hws).
  exists (rev ws); split.
  - unfold JsString.trimEnd.
    rewrite <- rev_app_distr, <- E, rev_involutive; reflexivity.
  - rewrite forallb_forall in *; intros c Hc.
    apply Hws, in_rev; exact Hc.
Qed.

Lemma trimEnd_last (s front : jsstring) (c : N) :
  JsString.trimEnd s = front ++ [c] -> JsString.is_white_space c = false.
Proof.
  unfold JsString.trimEnd; intros E.
  apply (f_equal (@rev N)) in E.
  rewrite rev_involutive, rev_app_distr in E; cbn [rev app] in E.
  exact (@trimStart_head _ _ _ E).
Qed.

Lemma trim_head (s : jsstring) (c : N) (r : jsstring) :
  JsString.trim s = c :: r -> JsString.is_white_space c = false.
Proof.
  unfold JsString.trim; intros E.
  destruct (trimEnd_split (JsString.trimStart s)) as (ws & Es & _).
  rewrite E in Es; cbn [app] in Es.
  exact (@trimStart_head _ _ _ Es).
Qed.

Lemma trim_last (s front : jsstring) (c : N) :
  JsString.trim s = front ++ [c] -> JsString.is_white_space c = false.
Proof. apply trimEnd_last. Qed.

Lemma trim_idempotent (s : jsstring) :
  JsString.trim (JsString.trim s) = JsString.trim s.
Proof.
  destruct (JsString.trim s) as [|c r] eqn:E; [reflexivity|].
  change (JsString.trim (c :: r))
    with (JsString.trimEnd (JsString.trimStart (c :: r))).
  cbn [JsString.trimStart]; rewrite (@trim_head s c r E).
  destruct (exists_last (l := c :: r)) as (front & z & Ez); [discriminate|].
  rewrite Ez in E; pose proof (@trim_last s front z E) as Hz.
  unfold JsString.trimEnd; rewrite Ez, rev_app_distr.
  cbn [rev app JsString.trimStart]; rewrite Hz.
  change (z :: rev front) with ([z] ++ rev front).
  rewrite rev_app_distr, rev_involutive; reflexivity.
Qed.

(** [trim] takes white space, and nothing else, off both ends. *)
Lemma trim_split (s : jsstring) :
  exists before after,
    s = before ++ JsString.trim s ++ after
    /\ forallb JsString.is_white_space before = true
    /\ forallb JsString.is_white_space after = true.
Proof.
  destruct (trimStart_split s) as (before & E1 & H1).
  destruct (trimEnd_split (JsString.trimStart s)) as (after & E2 & H2).
  exists before, after; unfold JsString.trim.
  rewrite <- E2, <- E1; repeat split; assumption.
Qed.

(* ================================================================= *)
(** ** Further properties: submissions and deletions that reach the store *)

Section Outcomes.

Context {S : Type} {userStore : UserStore S}.

Lemma passed_first_event (w : World S) :
  first_failed_check (um w) = None ->
  exists rest,
    log (snd (handleUserFormSubmit w))
    = log w ++ Awaited (submit_call (um w)) (with_loading true (um w)) :: rest
    /\ forallb (fun c => negb (is_mutation c)) (store_calls rest) = true.
Proof.
  intros H; rewrite (handleUserFormSubmit_passed w H); cbn [snd].
  destruct (mutate _ _) as [[[]|e] s1].
  - rewrite fetchUsers_run; cbn [snd um store log].
    destruct (getUsers s1) as [[us|e] s2]; cbn [log];
      rewrite <- !app_assoc; eexists; split; reflexivity.
  - cbn [log]; rewrite <- !app_assoc; eexists; split; reflexivity.
Qed.

Lemma passed_checks (u : UserManagement) :
  first_failed_check u = None ->
  JsString.truthy (JsString.trim (Form.username (form u))) = true
  /\ (displayPasswordFields u = true ->
      JsString.truthy (Form.password (form u)) = true
      /\ Form.password (form u) = Form.confirmPassword (form u)).
Proof.
  unfold first_failed_check.
  destruct (JsString.truthy (JsString.trim _)); cbn [negb]; [|discriminate].
  intros H; split; [reflexivity|]; intros Hd; rewrite Hd in H.
  destruct (JsString.truthy (Form.password _)); cbn [negb andb] in H;
    [|discriminate].
  destruct (JsString.eqb _ _) eqn:E; cbn [negb] in H; [|discriminate].
  split; [reflexivity|apply JsString_eqb_eq; exact E].
Qed.

Lemma message_or_truthy (e : JsError) (fallback : jsstring) :
  JsString.truthy fallback = true ->
  JsString.truthy (message_or e fallback) = true.
Proof.
  intros H; unfold message_or.
  destruct (message e) as [m|]; [|exact H].
  destruct (JsString.truthy m) eqn:Hm; assumption.
Qed.

(** When the store rejects the call of a submission, the handler still ends
    normally.  It logs the error and gives one notice of failure whose
    description is the message of the error, or the fixed fallback when the
    message is missing or empty, so never an empty one.  The list is not
    fetched again, and the record is what it was but for [loading], which is
    false: the modal stays as it is, the form keeps what was typed, [users]
    and [error] are untouched. *)
Theorem rejected_mutation_contained (w : World S) (e : JsError) (s1 : S) :
  first_failed_check (um w) = None ->
  mutate (submit_call (um w)) (store w) = (Rejected e, s1) ->
  let description := message_or e (JsString.lit "请稍后重试") in
  let w' := snd (handleUserFormSubmit w) in
  fst (handleUserFormSubmit w) = Normal tt
  /\ log w' = log w
       ++ [Awaited (submit_call (um w)) (with_loading true (um w));
           ConsoleError (JsString.lit "用户操作失败:") e;
           Notified NoticeError (JsString.lit "操作失败") (Some description)]
  /\ JsString.truthy description = true
  /\ (forall m, message e = Some m -> m <> [] -> description = m)
  /\ store w' = s1
  /\ um w' = with_loading false (um w)
  /\ modalVisible (um w') = modalVisible (um w)
  /\ form (um w') = form (um w)
  /\ users (um w') = users (um w)
  /\ error (um w') = error (um w).
Proof.
  intros H Hcall description w'; subst description w'.
  rewrite (handleUserFormSubmit_passed w H), Hcall; cbn [fst snd um store log].
  rewrite <- !app_assoc; cbn [app].
  repeat split.
  - apply message_or_truthy; reflexivity.
  - intros m Hm Hne; unfold message_or; rewrite Hm.
    destruct m; [congruence|reflexivity].
Qed.

(** When the store rejects the call to delete, the [onOk] callback written
    for the deletion still ends normally: it logs the error and gives one
    notice of failure with a description that is never empty.  The list is
    not fetched again and the record is what it was but for [loading],
    which is false. *)
Theorem rejected_delete_contained
    (user : UserRecord.t) (w : World S) (e : JsError) (s1 : S) :
  deleteUser (UserRecord.id user) (store w) = (Rejected e, s1) ->
  let description := message_or e (JsString.lit "请稍后重试") in
  let w' := snd (onOk user w) in
  fst (onOk user w) = Normal tt
  /\ log w' = log w
       ++ [Awaited (DeleteUser (UserRecord.id user))
                   (with_loading true (um w));
           ConsoleError (JsString.lit "删除用户失败:") e;
           Notified NoticeError (JsString.lit "删除失败") (Some description)]
  /\ JsString.truthy description = true
  /\ store w' = s1
  /\ um w' = with_loading false (um w)
  /\ users (um w') = users (um w)
  /\ error (um w') = error (um w).
Proof.
  intros Hcall description w'; subst description w'.
  rewrite onOk_run; cbn [fst snd].
  rewrite Hcall; cbn [um store log].
  rewrite <- !app_assoc; cbn [app].
  repeat split.
  apply message_or_truthy; reflexivity.
Qed.

(** In add mode, a submission that passes the checks calls [createUser]
    once, with the trimmed username, the password and the role, in this
    order.  In the states the component can be in, that password is not
    empty and is the one typed twice. *)
Theorem create_payload (w : World S) :
  editMode (um w) = false ->
  first_failed_check (um w) = None ->
  let u := um w in
  let payload :=
    [("username"%string, JsString.trim (Form.username (form u)));
     ("password"%string, Form.password (form u));
     ("role"%string, Form.role (form u))] in
  let w' := snd (handleUserFormSubmit w) in
  (exists rest,
     log w' = log w ++ Awaited (CreateUser payload) (with_loading true u)
                         :: rest
     /\ forallb (fun c => negb (is_mutation c)) (store_calls rest) = true)
  /\ (reachable w ->
      JsString.truthy (Form.password (form u)) = true
      /\ Form.password (form u) = Form.confirmPassword (form u)).
Proof.
  intros Hadd H u payload w'; subst u payload w'; split.
  - destruct (passed_first_event w H) as (rest & Hlog & Hrest).
    unfold submit_call in Hlog; rewrite Hadd in Hlog.
    exists rest; split; assumption.
  - intros Hw.
    apply (proj2 (passed_checks _ H)).
    apply (proj1 (reachable_form_invariant Hw) Hadd).
Qed.

(** The username a submission hands to the store, to create or to update,
    is the trimmed one: it is not empty, neither its first nor its last code
    unit is white space, and trimming it again changes nothing. *)
Theorem submitted_username_clean (w : World S) :
  first_failed_check (um w) = None ->
  let name := JsString.trim (Form.username (form (um w))) in
  let w' := snd (handleUserFormSubmit w) in
  (exists rest,
     log w' = log w ++ Awaited (submit_call (um w)) (with_loading true (um w))
                         :: rest)
  /\ get_prop "username" (call_data (submit_call (um w))) = Some name
  /\ (exists c r, name = c :: r /\ JsString.is_white_space c = false)
  /\ (exists front c,
        name = front ++ [c] /\ JsString.is_white_space c = false)
  /\ JsString.trim name = name.
Proof.
  intros H name w'; subst name w'.
  destruct (passed_first_event w H) as (rest & Hlog & _).
  destruct (passed_checks _ H) as [Hname _].
  split; [exists rest; exact Hlog|].
  split.
  { unfold submit_call, updateData, createData.
    destruct (editMode (um w)); [|reflexivity].
    destruct (displayPasswordFields (um w) && _)%bool; reflexivity. }
  destruct (JsString.trim (Form.username (form (um w)))) as [|c r] eqn:E;
    [discriminate|].
  split; [exists c, r; split; [reflexivity|exact (@trim_head _ c r E)]|].
  split.
  - destruct (exists_last (l := c :: r)) as (front & z & Ez); [discriminate|].
    exists front, z; split; [exact Ez|].
    rewrite Ez in E; exact (@trim_last _ front z E).
  - rewrite <- E; apply trim_idempotent.
Qed.

End Outcomes.

(* ================================================================= *)
(** ** Further properties: what the handlers and the controls leave alone *)

Section Frames.

Context {S : Type} {userStore : UserStore S}.

Lemma fetchUsers_setup (w : World S) :
  setup (um (snd (fetchUsers w))) = setup (um w).
Proof.
  rewrite fetchUsers_run; cbn [snd].
  destruct (getUsers (store w)) as [[us|e] s']; reflexivity.
Qed.

Lemma handleUserFormSubmit_setup (w : World S) :
  setup (um (snd (handleUserFormSubmit w))) = setup (um w).
Proof.
  destruct (first_failed_check (um w)) as [r|] eqn:H.
  - rewrite (handleUserFormSubmit_rejected w H); reflexivity.
  - rewrite (handleUserFormSubmit_passed w H); cbn [snd].
    destruct (mutate _ _) as [[[]|e] s1]; [|reflexivity].
    rewrite fetchUsers_run; cbn [snd um].
    destruct (getUsers _) as [[us|e] s2]; reflexivity.
Qed.

Lemma confirmDeleteUser_setup
    (user : UserRecord.t) (answer : Answer) (w : World S) :
  setup (um (snd (confirmDeleteUser user answer w))) = setup (um w).
Proof.
  rewrite confirmDeleteUser_run.
  destruct (strict_eq _ _); reflexivity.
Qed.

(** The handlers that talk to the store write [loading], [users], [error]
    and [modalVisible] only: whatever the store answers, the title of the
    modal, the mode, the user being edited, what is typed in the form and
    the password section are what they were. *)
Theorem handlers_keep_setup (w : World S) :
  setup (um (snd (fetchUsers w))) = setup (um w)
  /\ setup (um (snd (handleUserFormSubmit w))) = setup (um w)
  /\ forall user answer,
       setup (um (snd (confirmDeleteUser user answer w))) = setup (um w).
Proof.
  split; [apply fetchUsers_setup|].
  split; [apply handleUserFormSubmit_setup|].
  intros user answer; apply confirmDeleteUser_setup.
Qed.

Lemma step_ModalOk (w : World S) :
  step ModalOk w = snd (handleUserFormSubmit w).
Proof.
  unfold step; cbn [perform].
  apply flush_watchers_same.
  apply (proj1 (proj2 (handleUserFormSubmit_same_form w))).
Qed.

Lemma step_ClickDelete
    (row : nat) (answer : Answer) (record : UserRecord.t) (w : World S) :
  nth_error (dataSource (um w)) row = Some record ->
  step (ClickDelete row answer) w = snd (confirmDeleteUser record answer w).
Proof.
  intros Hrow; unfold step; cbn [perform]; rewrite Hrow.
  apply flush_watchers_same.
  apply (proj1 (proj2 (confirmDeleteUser_same_form record answer w))).
Qed.

Lemma quiet_step (a : Action) (w : World S) :
  talks_to_store a = false ->
  store (step a w) = store w
  /\ log (step a w) = log w
  /\ loading (um (step a w)) = loading (um w)
  /\ users (um (step a w)) = users (um w)
  /\ error (um (step a w)) = error (um w).
Proof.
  destruct w as [[ld us er mv mt em eid [fu fp fc fr] d] st l].
  unfold step, flush_watchers.
  destruct a; cbn [talks_to_store]; try discriminate; intros _;
    cbn [perform um dataSource users];
    try destruct (nth_error us row);
    try destruct checked; destruct d; cbn; repeat split.
Qed.

(** Opening a form, typing, choosing a role, turning the password section
    on or off and cancelling never contact the store and never show a
    notice; [loading], [users] and [error] are what they were. *)
Theorem quiet_actions_frame (a : Action) (w : World S) :
  talks_to_store a = false ->
  store (step a w) = store w
  /\ log (step a w) = log w
  /\ loading (um (step a w)) = loading (um w)
  /\ dataSource (um (step a w)) = dataSource (um w)
  /\ error (um (step a w)) = error (um w).
Proof. apply quiet_step. Qed.

(** Every call a submission makes to the store, the list call that follows
    it included, is made with [loading] set, and [loading] is false again
    once the handler is done. *)
Theorem store_calls_show_loading (w : World S) :
  exists new,
    log (snd (handleUserFormSubmit w)) = log w ++ new
    /\ calls_while_loading new = true
    /\ loading (um (snd (handleUserFormSubmit w))) = false.
Proof.
  destruct (first_failed_check (um w)) as [r|] eqn:H.
  - rewrite (handleUserFormSubmit_rejected w H); cbn [snd log um].
    eexists; repeat split.
  - rewrite (handleUserFormSubmit_passed w H); cbn [snd].
    destruct (mutate _ _) as [[[]|e] s1].
    + rewrite fetchUsers_run; cbn [snd um store log].
      destruct (getUsers s1) as [[us|e] s2]; cbn [log um];
        rewrite <- !app_assoc; eexists; repeat split.
    + cbn [log um]; rewrite <- !app_assoc; eexists; repeat split.
Qed.

End Frames.

(* ================================================================= *)
(** ** Further properties: the states the component can be in *)

Section Invariants.

Context {S : Type} {userStore : UserStore S}.

Lemma setup_mode_coherent (u u' : UserManagement) :
  setup u' = setup u -> mode_coherent u -> mode_coherent u'.
Proof.
  unfold setup, mode_coherent; intros E.
  injection E as -> -> -> _ _; tauto.
Qed.

Lemma step_mode_coherent (a : Action) (w : World S) :
  mode_coherent (um w) -> mode_coherent (um (step a w)).
Proof.
  intros Hinv; destruct (talks_to_store a) eqn:Ha.
  - destruct a; try discriminate.
    + unfold step; cbn [perform].
      destruct (nth_error (dataSource (um w)) row) as [record|] eqn:Hrow.
      * pose proof (confirmDeleteUser_same_form record answer w) as Hsame.
        rewrite flush_watchers_same by apply (proj1 (proj2 Hsame)).
        apply (setup_mode_coherent (confirmDeleteUser_setup _ _ _) Hinv).
      * rewrite flush_watchers_same by reflexivity; exact Hinv.
    + rewrite step_ModalOk.
      apply (setup_mode_coherent (handleUserFormSubmit_setup _) Hinv).
  - destruct w as [[ld us er mv mt em eid [fu fp fc fr] d] st l].
    unfold step, flush_watchers, mode_coherent in *.
    destruct a; try discriminate;
      cbn [perform um dataSource users];
      try destruct (nth_error us row);
      try destruct checked; destruct d; cbn in *;
      try exact Hinv; try reflexivity; split; reflexivity.
Qed.

(** In every state the component can be in, the title of the modal goes
    with the mode, and outside edit mode no user is held as being edited. *)
Theorem reachable_mode_coherent (w : World S) :
  reachable w -> mode_coherent (um w).
Proof.
  induction 1 as [s|a w Hw IH Hen|s' w Hw IH].
  - unfold mounted, onMounted, function_.
    rewrite fetchUsers_run; cbn [snd um store].
    destruct (getUsers s) as [[us|e] s']; split; reflexivity.
  - apply step_mode_coherent; exact IH.
  - exact IH.
Qed.

Lemma fetchUsers_banner (w : World S) :
  banner_coherent (um (snd (fetchUsers w))).
Proof.
  rewrite fetchUsers_run; cbn [snd].
  destruct (getUsers (store w)) as [[us|e] s'];
    [left|right]; reflexivity.
Qed.



Lemma step_never_deletes (a : Action) (w : World S) :
  never_deletes (log w) = true -> never_deletes (log (step a w)) = true.
Proof.
  intros Hinv; destruct (talks_to_store a) eqn:Ha.
  - destruct a; try discriminate.
    + unfold step; cbn [perform].
      destruct (nth_error (dataSource (um w)) row) as [record|] eqn:Hrow.
      * pose proof (confirmDeleteUser_same_form record answer w) as Hsame.
        rewrite flush_watchers_same by apply (proj1 (proj2 Hsame)).
        rewrite confirmDeleteUser_run.
        destruct (strict_eq _ _); [|exact Hinv].
        cbn [snd log]; unfold never_deletes in *.
        rewrite store_calls_app, forallb_app, Hinv; reflexivity.
      * rewrite flush_watchers_same by reflexivity; exact Hinv.
    + rewrite step_ModalOk; unfold never_deletes in *.
      destruct (first_failed_check (um w)) as [r|] eqn:H.
      * rewrite (handleUserFormSubmit_rejected w H); cbn [snd log].
        rewrite store_calls_app, forallb_app, Hinv; reflexivity.
      * rewrite (handleUserFormSubmit_passed w H); cbn [snd].
        unfold submit_call.
        destruct (editMode (um w)); cbn [mutate];
          (destruct (updateUser _ _ _) as [[[]|e] s1]
           || destruct (createUser _ _) as [[[]|e] s1]);
          rewrite ?fetchUsers_run; cbn [snd um store log];
          try (destruct (getUsers s1) as [[us|e] s2]; cbn [log]);
          rewrite !store_calls_app, !forallb_app, Hinv; reflexivity.
  - rewrite (proj1 (proj2 (quiet_step a w Ha))); exact Hinv.
Qed.

(** The delete button does not delete.  A click on a delete button that can
    be clicked leaves the component exactly as it was: no dialog is shown,
    no call is made, nothing is written.  And in no state the component can
    be in has [deleteUser] been called. *)
Theorem delete_button_does_nothing :
  (forall (row : nat) (answer : Answer) (w : World S),
      enabled (ClickDelete row answer) w = true ->
      step (ClickDelete row answer) w = w)
  /\ (forall w : World S,
         reachable w -> never_deletes (log w) = true).
Proof.
  split.
  - intros row answer w Hen; cbn [enabled] in Hen.
    destruct (nth_error (dataSource (um w)) row) as [record|] eqn:Hrow;
      [|discriminate].
    apply negb_true_iff, deleteDisabled_false_iff in Hen.
    destruct Hen as [Hid _]; apply strict_eq_neq in Hid.
    rewrite (step_ClickDelete row answer w Hrow), confirmDeleteUser_run, Hid.
    reflexivity.
  - induction 1 as [s|a w Hw IH Hen|s' w Hw IH].
    + unfold mounted, onMounted, function_.
      rewrite fetchUsers_run; cbn [snd um store log].
      destruct (getUsers s) as [[us|e] s']; reflexivity.
    + apply step_never_deletes; exact IH.
    + exact IH.
Qed.

End Invariants.

(* ================================================================= *)
(** ** Further properties: opening a form and submitting it *)

Section Forms.

Context {S : Type} {userStore : UserStore S}.

Lemma step_ClickEdit (row : nat) (record : UserRecord.t) (w : World S) :
  nth_error (dataSource (um w)) row = Some record ->
  step (ClickEdit row) w =
  {| um := {| loading := loading (um w);
              users := users (um w);
              error := error (um w);
              modalVisible := true;
              modalTitle := JsString.lit "编辑用户";
              editMode := true;
              editUserId := UserRecord.id record;
              form := {| Form.username := UserRecord.username record;
                         Form.password := [];
                         Form.confirmPassword := [];
                         Form.role := UserRecord.role record |};
              displayPasswordFields := false |};
     store := store w;
     log := log w |}.
Proof.
  intros Hrow; unfold step, flush_watchers; cbn [perform]; rewrite Hrow.
  destruct w as [[ld us er mv mt em eid [fu fp fc fr] d] st l].
  destruct d; reflexivity.
Qed.

Lemma step_ClickAdd (w : World S) :
  step ClickAdd w =
  {| um := {| loading := loading (um w);
              users := users (um w);
              error := error (um w);
              modalVisible := true;
              modalTitle := JsString.lit "添加用户";
              editMode := false;
              editUserId := JNull;
              form := {| Form.username := [];
                         Form.password := [];
                         Form.confirmPassword := [];
                         Form.role := JsString.lit "user" |};
              displayPasswordFields := true |};
     store := store w;
     log := log w |}.
Proof.
  unfold step, flush_watchers; cbn [perform].
  destruct w as [[ld us er mv mt em eid [fu fp fc fr] d] st l].
  destruct d; reflexivity.
Qed.

(** Opening the edit form of a row fills it with the name and the role of
    the row and leaves both password fields empty, whatever the form held
    before.  Pressing ok on the form as it opened calls [updateUser] for the
    clicked row with its trimmed name and its role, and no password; when
    the name of the row is blank, the submission is refused instead and the
    modal stays open. *)
Theorem edit_form_round_trip
    (row : nat) (record : UserRecord.t) (w : World S) :
  nth_error (dataSource (um w)) row = Some record ->
  let w1 := step (ClickEdit row) w in
  let w2 := step ModalOk w1 in
  form (um w1) = {| Form.username := UserRecord.username record;
                    Form.password := [];
                    Form.confirmPassword := [];
                    Form.role := UserRecord.role record |}
  /\ store w1 = store w
  /\ log w1 = log w
  /\ if JsString.truthy (JsString.trim (UserRecord.username record))
     then exists rest,
         log w2 = log w
           ++ Awaited (UpdateUser (UserRecord.id record)
                         [("username"%string,
                           JsString.trim (UserRecord.username record));
                          ("role"%string, UserRecord.role record)])
                      (with_loading true (um w1))
                :: rest
     else log w2 = log w ++ [rejection_notice UsernameRequired]
          /\ store w2 = store w
          /\ modalVisible (um w2) = true.
Proof.
  intros Hrow w1 w2; subst w2 w1.
  rewrite step_ModalOk, (step_ClickEdit row w Hrow); cbn [um store log form].
  split; [reflexivity|]; split; [reflexivity|]; split; [reflexivity|].
  destruct (JsString.truthy (JsString.trim (UserRecord.username record)))
    eqn:Hname.
  - match goal with
    | |- context [handleUserFormSubmit ?w0] =>
        destruct (@passed_first_event _ _ w0) as (rest & Hlog & _)
    end.
    + unfold first_failed_check; cbn [um form Form.username
        displayPasswordFields andb]; rewrite Hname; reflexivity.
    + exists rest; exact Hlog.
  - match goal with
    | |- context [handleUserFormSubmit ?w0] =>
        rewrite (@handleUserFormSubmit_rejected _ _ w0 UsernameRequired)
    end.
    + repeat split.
    + unfold first_failed_check; cbn [um form Form.username];
        rewrite Hname; reflexivity.
Qed.

(** Opening the add form blanks it, with the role set to [user], whatever
    it held before; pressing ok on it as it opened is refused for want of a
    username, with no call to the store, and the modal stays open. *)
Theorem add_form_starts_blank (w : World S) :
  let w1 := step ClickAdd w in
  let w2 := step ModalOk w1 in
  form (um w1) = {| Form.username := [];
                    Form.password := [];
                    Form.confirmPassword := [];
                    Form.role := JsString.lit "user" |}
  /\ store w1 = store w
  /\ log w1 = log w
  /\ log w2 = log w ++ [rejection_notice UsernameRequired]
  /\ store w2 = store w
  /\ modalVisible (um w2) = true.
Proof.
  intros w1 w2; subst w2 w1.
  rewrite step_ModalOk, step_ClickAdd; cbn [um store log form].
  split; [reflexivity|]; split; [reflexivity|]; split; [reflexivity|].
  match goal with
  | |- context [handleUserFormSubmit ?w0] =>
      rewrite (@handleUserFormSubmit_rejected _ _ w0 UsernameRequired)
  end; [repeat split|reflexivity].
Qed.

Lemma step_add_role (a : Action) (w : World S) :
  (forall s : S, isSuperAdmin s = false) ->
  enabled a w = true ->
  (editMode (um w) = false -> Form.role (form (um w)) = JsString.lit "user") ->
  editMode (um (step a w)) = false ->
  Form.role (form (um (step a w))) = JsString.lit "user".
Proof.
  intros Hplain Hen Hinv.
  destruct (talks_to_store a) eqn:Ha.
  - destruct a; try discriminate.
    + cbn [enabled] in Hen.
      destruct (nth_error (dataSource (um w)) row) as [record|] eqn:Hrow;
        [|discriminate].
      rewrite (step_ClickDelete row answer w Hrow).
      destruct (confirmDeleteUser_same_form record answer w)
        as (-> & _ & ->); exact Hinv.
    + rewrite step_ModalOk.
      destruct (handleUserFormSubmit_same_form w) as (-> & _ & ->);
        exact Hinv.
  - destruct a; try discriminate.
    + rewrite step_ClickAdd; reflexivity.
    + cbn [enabled] in Hen.
      destruct (nth_error (dataSource (um w)) row) as [record|] eqn:Hrow;
        [|discriminate].
      rewrite (step_ClickEdit row w Hrow); discriminate.
    + destruct w as [[ld us er mv mt em eid [fu fp fc fr] d] st l].
      destruct d; exact Hinv.
    + destruct w as [[ld us er mv mt em eid [fu fp fc fr] d] st l].
      destruct d; exact Hinv.
    + destruct w as [[ld us er mv mt em eid [fu fp fc fr] d] st l].
      destruct d; exact Hinv.
    + destruct w as [[ld us er mv mt em eid [fu fp fc fr] d] st l].
      destruct d, checked; exact Hinv.
    + cbn [enabled] in Hen; unfold role_offered in Hen.
      rewrite Hplain in Hen; cbn [andb] in Hen.
      rewrite orb_false_r in Hen; apply JsString_eqb_eq in Hen; subst r.
      destruct w as [[ld us er mv mt em eid [fu fp fc fr] d] st l].
      destruct d; reflexivity.
    + destruct w as [[ld us er mv mt em eid [fu fp fc fr] d] st l].
      destruct d; exact Hinv.
Qed.

(** When the store never reports a superadmin, the role of the add form is
    [user] in every state the component can be in, so a submission in add
    mode asks for a user of role [user] and nothing else. *)
Theorem plain_session_adds_users_only (w : World S) :
  (forall s : S, isSuperAdmin s = false) ->
  reachable w ->
  editMode (um w) = false ->
  Form.role (form (um w)) = JsString.lit "user"
  /\ get_prop "role" (call_data (submit_call (um w)))
     = Some (JsString.lit "user").
Proof.
  intros Hplain Hw.
  assert (Hinv : editMode (um w) = false ->
                 Form.role (form (um w)) = JsString.lit "user").
  { induction Hw as [s|a w Hw IH Hen|s' w Hw IH].
    - unfold mounted, onMounted, function_.
      rewrite fetchUsers_run; cbn [snd um store].
      destruct (getUsers s) as [[us|e] s']; reflexivity.
    - apply (step_add_role a w Hplain Hen IH).
    - exact IH. }
  intros Hadd; split; [exact (Hinv Hadd)|].
  unfold submit_call; rewrite Hadd; cbn.
  rewrite (Hinv Hadd); reflexivity.
Qed.

End Forms.

(** The colour of a role is one of four; it is the neutral one exactly for
    the roles whose label is the role itself, that is for every role but
    the three known ones. *)
Theorem role_colour_follows_label (role : jsstring) :
  (getRoleColor role = JsString.lit "default" <-> getRoleLabel role = role)
  /\ (getRoleLabel role = role
      <-> role <> JsString.lit "superadmin"
          /\ role <> JsString.lit "admin"
          /\ role <> JsString.lit "user")
  /\ In (getRoleColor role)
        [JsString.lit "red"; JsString.lit "blue"; JsString.lit "green";
         JsString.lit "default"].
Proof.
  unfold getRoleColor, getRoleLabel.
  destruct (JsString.eqb role (JsString.lit "superadmin")) eqn:E1;
    [apply JsString_eqb_eq in E1; subst role; vm_compute;
     repeat split; try discriminate; try tauto;
     intros (H & _); exact (H eq_refl)|].
  destruct (JsString.eqb role (JsString.lit "admin")) eqn:E2;
    [apply JsString_eqb_eq in E2; subst role; vm_compute;
     repeat split; try discriminate; try tauto;
     intros (_ & H & _); exact (H eq_refl)|].
  destruct (JsString.eqb role (JsString.lit "user")) eqn:E3;
    [apply JsString_eqb_eq in E3; subst role; vm_compute;
     repeat split; try discriminate; try tauto;
     intros (_ & _ & H); exact (H eq_refl)|].
  apply JsString_eqb_neq in E1, E2, E3.
  repeat split; auto.
  cbn; tauto.
Qed.

(* ================================================================= *)
(** ** The further properties at work *)

Lemma rejected_mutation_contained_witness :
  modalVisible
    (um (snd (handleUserFormSubmit
                (Scripted.adding [false] "alice" "p1" "p1"))))
  = modalVisible (um (Scripted.adding [false] "alice" "p1" "p1"))
  /\ store_calls
       (log (snd (handleUserFormSubmit
                    (Scripted.adding [false] "alice" "p1" "p1"))))
     = [GetUsers;
        CreateUser [("username"%string, JsString.lit "alice");
                    ("password"%string, JsString.lit "p1");
                    ("role"%string, JsString.lit "user")]].
Proof.
  pose proof (@rejected_mutation_contained _ _
                (Scripted.adding [false] "alice" "p1" "p1")
                Scripted.network_error (Scripted.server [])) as H.
  destruct H as (_ & Hlog & _ & _ & _ & _ & Hmodal & _);
    [vm_compute; reflexivity|vm_compute; reflexivity|].
  split; [exact Hmodal|].
  rewrite Hlog; reflexivity.
Defined.

Lemma rejected_delete_contained_witness :
  users (um (snd (onOk Scripted.alice (root_session [false]))))
  = users (um (root_session [false])).
Proof.
  eapply (@rejected_delete_contained _ _ Scripted.alice
            (root_session [false])).
  vm_compute; reflexivity.
Defined.

Lemma create_payload_witness :
  JsString.truthy
    (Form.password (form (um (Scripted.adding [true; true] "bob" "p1" "p1"))))
  = true
  /\ Form.password (form (um (Scripted.adding [true; true] "bob" "p1" "p1")))
     = Form.confirmPassword
         (form (um (Scripted.adding [true; true] "bob" "p1" "p1"))).
Proof.
  apply (proj2 (@create_payload _ _
                  (Scripted.adding [true; true] "bob" "p1" "p1")
                  eq_refl eq_refl)).
  apply adding_reachable.
Defined.

Lemma submitted_username_clean_witness :
  get_prop "username"
    (call_data (submit_call (um (Scripted.adding [true] " bob " "p1" "p1"))))
  = Some (JsString.lit "bob").
Proof.
  apply (@submitted_username_clean _ _
           (Scripted.adding [true] " bob " "p1" "p1") eq_refl).
Defined.

Lemma quiet_actions_frame_witness :
  log (step (InputUsername (JsString.lit "bob")) (Scripted.editing []))
  = log (Scripted.editing []).
Proof.
  apply (@quiet_actions_frame _ _ (InputUsername (JsString.lit "bob"))
           (Scripted.editing []) eq_refl).
Defined.

Lemma reachable_mode_coherent_witness :
  mode_coherent (um (Scripted.editing [])).
Proof. apply reachable_mode_coherent, editing_reachable. Defined.


Lemma root_session_reachable (answers : list bool) :
  reachable (root_session answers).
Proof. apply reach_mounted. Defined.

Lemma delete_button_does_nothing_witness :
  step (ClickDelete 0 PressOk) (root_session [true; true])
  = root_session [true; true]
  /\ never_deletes
       (log (step ModalOk
               (step (InputUsername (JsString.lit "bob"))
                  (step (ClickEdit 0) (root_session [true; true])))))
     = true.
Proof.
  split.
  - apply (proj1 (@delete_button_does_nothing _ Scripted.userStore)).
    vm_compute; reflexivity.
  - apply (proj2 (@delete_button_does_nothing _ Scripted.userStore)).
    repeat (apply reach_step; [|reflexivity]).
    apply root_session_reachable.
Defined.

Lemma edit_form_round_trip_witness :
  form (um (step (ClickEdit 0) (Scripted.start [true; true])))
  = {| Form.username := JsString.lit "alice";
       Form.password := [];
       Form.confirmPassword := [];
       Form.role := JsString.lit "admin" |}.
Proof.
  apply (@edit_form_round_trip _ _ 0 Scripted.alice
           (Scripted.start [true; true]) eq_refl).
Defined.

Lemma plain_session_adds_users_only_witness :
  Form.role (form (um Offline.adding)) = JsString.lit "user".
Proof.
  apply (@plain_session_adds_users_only _ _ Offline.adding).
  - intros s; reflexivity.
  - unfold Offline.adding.
    apply reach_step; [apply reach_mounted|reflexivity].
  - reflexivity.
Defined.

Section Stale.

Context {S : Type} {userStore : UserStore S}.

(** In edit mode, once the password section is turned off, whatever was
    typed in the password fields is not sent: pressing ok calls [updateUser]
    for the user being edited with the trimmed username and the role, and no
    password, whether or not the two fields agreed. *)
Theorem password_section_off_sends_none (w : World S) :
  editMode (um w) = true ->
  JsString.truthy (JsString.trim (Form.username (form (um w)))) = true ->
  let w1 := step (CheckDisplayPassword false) w in
  let w2 := step ModalOk w1 in
  exists rest,
    log w2 = log w
      ++ Awaited (UpdateUser (editUserId (um w))
                    [("username"%string,
                      JsString.trim (Form.username (form (um w))));
                     ("role"%string, Form.role (form (um w)))])
                 (with_loading true (um w1))
           :: rest
    /\ forallb (fun c => negb (is_mutation c)) (store_calls rest) = true.
Proof.
  intros Hedit Hname w1 w2; subst w2 w1; rewrite step_ModalOk.
  destruct w as [[ld us er mv mt em eid [fu fp fc fr] d] st l].
  cbn [um editMode form Form.username] in Hedit, Hname; subst em.
  assert (Hoff :
    exists pw cpw,
      step (CheckDisplayPassword false)
        {| um := {| loading := ld; users := us; error := er;
                    modalVisible := mv; modalTitle := mt; editMode := true;
                    editUserId := eid;
                    form := {| Form.username := fu; Form.password := fp;
                               Form.confirmPassword := fc;
                               Form.role := fr |};
                    displayPasswordFields := d |};
           store := st; log := l |}
      = {| um := {| loading := ld; users := us; error := er;
                    modalVisible := mv; modalTitle := mt; editMode := true;
                    editUserId := eid;
                    form := {| Form.username := fu; Form.password := pw;
                               Form.confirmPassword := cpw;
                               Form.role := fr |};
                    displayPasswordFields := false |};
           store := st; log := l |}).
  { destruct d; do 2 eexists; reflexivity. }
  destruct Hoff as (pw & cpw & ->).
  match goal with
  | |- context [handleUserFormSubmit ?w0] =>
      destruct (@passed_first_event _ _ w0) as (rest & Hlog & Hrest)
  end.
  - unfold first_failed_check.
    cbn [um form Form.username displayPasswordFields andb].
    rewrite Hname; reflexivity.
  - exists rest; split; [exact Hlog|exact Hrest].
Qed.

End Stale.

Lemma password_section_off_sends_none_witness :
  exists rest,
    store_calls
      (log (step ModalOk
              (step (CheckDisplayPassword false)
                 (Scripted.changing_password [true; true] "p1" "p2"))))
    = GetUsers
        :: UpdateUser (JNum 1) [("username"%string, JsString.lit "alice");
                                ("role"%string, JsString.lit "admin")]
        :: rest.
Proof.
  pose proof (@password_section_off_sends_none _ _
                (Scripted.changing_password [true; true] "p1" "p2")) as H.
  destruct H as (rest & Hlog & _);
    [vm_compute; reflexivity|vm_compute; reflexivity|].
  exists (store_calls rest); rewrite Hlog, store_calls_app; reflexivity.
Defined.
